(** * A Tour of SciKit-Learn: the notebook as a program

    The repository is one Jupyter notebook.  A notebook is a JSON document:
    a list of cells, each holding Python source.  This development
    transcribes every code cell of the notebook as a syntax tree of the
    Python fragment the notebook is written in, gives that fragment an
    executable semantics, and proves the properties of the notebook over it.

    The notebook computes nothing itself: every value of interest comes out
    of scikit-learn, numpy, pandas or matplotlib.  The semantics therefore
    evaluates the Python of the notebook concretely (names, tuples, loops
    over literal sequences, [idx+1], [[colors] * 20]) and treats every
    operation on a library value as an uninterpreted, logged operation
    that the library may answer with an exception. *)

From Stdlib Require Import ZArith Ascii String.
From stdpp Require Import base option strings list.

Scheme All for list.
Scheme All for prod.
Scheme All for option.

Local Open Scope string_scope.
Local Open Scope list_scope.
Local Open Scope Z_scope.

(** ** Syntax of the Python fragment *)

(** Constructs of Python that the semantics below does not model.  The
    syntax can name them so that their absence from the notebook is a
    statement about the notebook and not about the syntax. *)
Inductive construct :=
  | FunctionDef | ClassDef | Lambda | With | While | AsyncAwait | Yield
  | RaiseStmt | AssertStmt | Delete | GlobalDecl.

Inductive binop := Add | Mult | Mod.

Inductive expr :=
  | EName (id : string)
  | EAttribute (e : expr) (attr : string)
  | ECall (func : expr) (args : list expr) (keywords : list (string * expr))
  | EStr (s : string)
  | ENum (n : Z)
  | EDec (digits : Z) (scale : nat)      (* the literal digits / 10^scale *)
  | ENone
  | ETuple (elts : list expr)
  | EList (elts : list expr)
  | EDict (items : list (expr * expr))
  | EListComp (elt : expr) (target : string) (iter : expr)
  | EBinOp (l : expr) (op : binop) (r : expr)
  | ENotEq (l r : expr)
  | ESubscript (e : expr) (slice : expr)
  | ESlice (lower upper : option expr)
  | EOther (c : construct).

Inductive target :=
  | TName (id : string)
  | TTuple (ids : list string)
  | TAttribute (e : expr) (attr : string)
  | TSubscript (e : expr) (key : expr).

Inductive stmt :=
  | SMagic (line : string)
  | SImport (module : string) (asname : option string)
  | SImportFrom (module name : string) (asname : option string)
  | SAssign (t : target) (value : expr)
  | SExpr (e : expr)
  | SFor (t : target) (iter : expr) (body : list stmt)
  | SIf (test : expr) (body orelse : list stmt)
  | STry (body handler : list stmt)
  | SOther (c : construct).

Inductive cell :=
  | Markdown (heading : string)
  | Code (source : list stmt).

(** ** Values, events and machine state *)

Inductive value :=
  | VNone
  | VBool (b : bool)
  | VInt (n : Z)
  | VDec (digits : Z) (scale : nat)
  | VStr (s : string)
  | VTuple (vs : list value)
  | VList (vs : list value)
  | VDict (kvs : list (value * value))
  | VSlice (lo hi : option value)
  | VModule (path : string)               (* [import path] *)
  | VSymbol (module name : string)        (* [from module import name] *)
  | VBuiltin (name : string)
  | VObj (site : nat)                     (* what the operation logged at [site] produced *)
  | VAttrOf (v : value) (attr : string)   (* [v.attr] *)
  | VItemOf (v : value) (key : value)     (* [v[key]] *)
  | VElemOf (v : value).                  (* a generic element of iterating [v] *)

Inductive event :=
  | EvMagic (line : string)
  | EvImport (module : string) (name : option string)
  | EvGetAttr (v : value) (attr : string)
  | EvGetItem (v : value) (key : value)
  | EvSetAttr (v : value) (attr : string) (x : value)
  | EvSetItem (v : value) (key : value) (x : value)
  | EvCall (callee : value) (args : list value) (kwargs : list (string * value))
  | EvBinOp (op : binop) (l r : value)
  | EvNotEq (l r : value)
  | EvUnpack (v : value) (n : nat)
  | EvIter (v : value).

(** The global namespace: each name with its value and the index of the cell
    that bound it. *)
Definition namespace : Type := list (string * (value * nat)).

Fixpoint get_name (id : string) (g : namespace) : option (value * nat) :=
  match g with
  | [] => None
  | (k, b) :: g' => if String.eqb k id then Some b else get_name id g'
  end.

Fixpoint set_name (id : string) (b : value * nat) (g : namespace) : namespace :=
  match g with
  | [] => [(id, b)]
  | (k, b') :: g' =>
      if String.eqb k id then (id, b) :: g' else (k, b') :: set_name id b g'
  end.

Fixpoint del_name (id : string) (g : namespace) : namespace :=
  match g with
  | [] => []
  | (k, b) :: g' => if String.eqb k id then g' else (k, b) :: del_name id g'
  end.

(** A name resolution: the cell that reads, the name, the cell that bound
    it ([None] for a builtin) and the value found. *)
Record read := Read {
  reader : nat;
  name_read : string;
  binder : option nat;
  found : value
}.

(** The kernel state: the global namespace (each name with the index of the
    cell that bound it), the log of operations in the order they happened,
    each tagged with the cell that performed it, the log of name
    resolutions, and the index of the running cell. *)
Record state := State {
  globals : namespace;
  trace : list (nat * event);
  reads : list read;
  running : nat
}.

Definition log (e : event) (st : state) : state :=
  State (globals st) (trace st ++ [(running st, e)]) (reads st) (running st).

Definition log_read (id : string) (b : option nat) (v : value) (st : state) : state :=
  State (globals st) (trace st) (reads st ++ [Read (running st) id b v]) (running st).

Inductive outcome (A : Type) :=
  | Done (a : A)
  | Raised (exn : string).
Arguments Done {A} a.
Arguments Raised {A} exn.

Definition M (A : Type) : Type := state → outcome A * state.

Global Instance M_ret : MRet M := λ A a st, (Done a, st).
Global Instance M_bind : MBind M := λ A B f m st,
  match m st with
  | (Done a, st') => f a st'
  | (Raised x, st') => (Raised x, st')
  end.

Definition raise {A} (x : string) : M A := λ st, (Raised x, st).

(** [try: body / except: handler] *)
Definition catch (body handler : M unit) : M unit := λ st,
  match body st with
  | (Raised _, st') => handler st'
  | r => r
  end.

Definition builtins : list string := ["print"; "len"; "enumerate"].

Definition lookup_name (id : string) : M value := λ st,
  match get_name id (globals st) with
  | Some (v, c) => (Done v, log_read id (Some c) v st)
  | None =>
      if bool_decide (id ∈ builtins)
      then (Done (VBuiltin id), log_read id None (VBuiltin id) st)
      else (Raised "NameError", st)
  end.

Definition bind_name (id : string) (v : value) : M unit := λ st,
  (Done tt, State (set_name id (v, running st) (globals st)) (trace st) (reads st) (running st)).

(** A comprehension binds its variable in a scope of its own (Python 3). *)
Definition with_local {A} (id : string) (v : value) (m : M A) : M A := λ st,
  let saved := get_name id (globals st) in
  match m (State (set_name id (v, running st) (globals st)) (trace st) (reads st) (running st)) with
  | (r, st') =>
      (r, State (match saved with
                 | Some b => set_name id b (globals st')
                 | None => del_name id (globals st')
                 end) (trace st') (reads st') (running st'))
  end.

Fixpoint enumerate_from (i : Z) (vs : list value) : list value :=
  match vs with
  | [] => []
  | v :: vs' => VTuple [VInt i; v] :: enumerate_from (i + 1) vs'
  end.

Fixpoint chars (s : string) : list value :=
  match s with
  | EmptyString => []
  | String c s' => VStr (String c EmptyString) :: chars s'
  end.

Fixpoint bind_names (ids : list string) (vs : list value) : M unit :=
  match ids, vs with
  | [], [] => mret tt
  | id :: ids', v :: vs' => bind_name id v ;; bind_names ids' vs'
  | _, _ => raise "ValueError"
  end.

Fixpoint projections (v : value) (i : nat) (n : nat) : list value :=
  match n with
  | O => []
  | S n' => VItemOf v (VInt (Z.of_nat i)) :: projections v (S i) n'
  end.

Fixpoint forM_ {A} (f : A → M unit) (l : list A) : M unit :=
  match l with
  | [] => mret tt
  | a :: l' => f a ;; forM_ f l'
  end.

(** The operations the kernel performs itself, on values it holds in full:
    [enumerate] and [len] of a literal sequence, integer arithmetic, list
    repetition, comparison of literals.  Everything else goes to the
    library. *)
Definition builtin_call (f : value) (args : list value) (kw : list (string * value))
    : option value :=
  match f, args, kw with
  | VBuiltin "enumerate", [VTuple vs], [] => Some (VList (enumerate_from 0 vs))
  | VBuiltin "enumerate", [VList vs], [] => Some (VList (enumerate_from 0 vs))
  | VBuiltin "len", [VTuple vs], [] => Some (VInt (Z.of_nat (length vs)))
  | VBuiltin "len", [VList vs], [] => Some (VInt (Z.of_nat (length vs)))
  | VBuiltin "len", [VStr s], [] => Some (VInt (Z.of_nat (String.length s)))
  | _, _, _ => None
  end.

Definition concrete_binop (op : binop) (l r : value) : option value :=
  match op, l, r with
  | Add, VInt a, VInt b => Some (VInt (a + b))
  | Mult, VInt a, VInt b => Some (VInt (a * b))
  | Mult, VList vs, VInt n => Some (VList (mjoin (replicate (Z.to_nat n) vs)))
  | _, _, _ => None
  end.

Definition concrete_not_equal (l r : value) : option value :=
  match l, r with
  | VStr a, VStr b => Some (VBool (negb (String.eqb a b)))
  | VInt a, VInt b => Some (VBool (negb (Z.eqb a b)))
  | _, _ => None
  end.

Section Semantics.

(** What the world outside the notebook answers to the operation logged at
    a given position of the log: nothing, or an exception. *)
Variable lib : nat → option string.

Definition libop (e : event) : M nat := λ st,
  let n := length (trace st) in
  match lib n with
  | Some x => (Raised x, log e st)
  | None => (Done n, log e st)
  end.

Definition call (f : value) (args : list value) (kw : list (string * value)) : M value :=
  match builtin_call f args kw with
  | Some v => mret v
  | None => n ← libop (EvCall f args kw); mret (VObj n)
  end.

Definition binary (op : binop) (l r : value) : M value :=
  match concrete_binop op l r with
  | Some v => mret v
  | None => n ← libop (EvBinOp op l r); mret (VObj n)
  end.

Definition not_equal (l r : value) : M value :=
  match concrete_not_equal l r with
  | Some v => mret v
  | None => n ← libop (EvNotEq l r); mret (VObj n)
  end.

(** Evaluation follows Python's order: the function before its arguments,
    positional arguments before keyword ones, the subscripted value before
    the subscript.  A comprehension over a sequence the kernel holds in full
    evaluates its element once per item; over a library value, whose items
    only the library knows, it logs the iteration and evaluates its element
    once, on a generic item. *)
Fixpoint eval (e : expr) : M value :=
  match e with
  | EName id => lookup_name id
  | EAttribute e' attr =>
      v ← eval e'; libop (EvGetAttr v attr) ;; mret (VAttrOf v attr)
  | ECall func args keywords =>
      f ← eval func;
      vs ← mapM eval args;
      kw ← mapM (λ '(k, a), v ← eval a; mret (k, v)) keywords;
      call f vs kw
  | EStr s => mret (VStr s)
  | ENum n => mret (VInt n)
  | EDec d s => mret (VDec d s)
  | ENone => mret VNone
  | ETuple elts => vs ← mapM eval elts; mret (VTuple vs)
  | EList elts => vs ← mapM eval elts; mret (VList vs)
  | EDict items =>
      kvs ← mapM (λ '(k, a), kv ← eval k; v ← eval a; mret (kv, v)) items;
      mret (VDict kvs)
  | EListComp elt x iter =>
      it ← eval iter;
      match it with
      | VStr s => vs ← mapM (λ c, with_local x c (eval elt)) (chars s); mret (VList vs)
      | VList items | VTuple items =>
          vs ← mapM (λ c, with_local x c (eval elt)) items; mret (VList vs)
      | _ =>
          n ← libop (EvIter it);
          with_local x (VElemOf it) (eval elt) ;;
          mret (VObj n)
      end
  | EBinOp l op r => a ← eval l; b ← eval r; binary op a b
  | ENotEq l r => a ← eval l; b ← eval r; not_equal a b
  | ESubscript e' slice =>
      v ← eval e'; k ← eval slice;
      libop (EvGetItem v k) ;; mret (VItemOf v k)
  | ESlice lower upper =>
      lo ← match lower with Some a => v ← eval a; mret (Some v) | None => mret None end;
      hi ← match upper with Some a => v ← eval a; mret (Some v) | None => mret None end;
      mret (VSlice lo hi)
  | EOther _ => raise "Unmodelled"
  end.

(** Binding a target to a value that is already computed.  Unpacking a
    library value is an operation of the library; its parts are the items of
    the value. *)
Definition assign (t : target) (v : value) : M unit :=
  match t with
  | TName id => bind_name id v
  | TTuple ids =>
      match v with
      | VTuple vs | VList vs => bind_names ids vs
      | _ =>
          libop (EvUnpack v (length ids)) ;;
          bind_names ids (projections v 0 (length ids))
      end
  | TAttribute e attr => o ← eval e; libop (EvSetAttr o attr v) ;; mret tt
  | TSubscript e key => o ← eval e; k ← eval key; libop (EvSetItem o k v) ;; mret tt
  end.

(** Statements.  An assignment evaluates its right-hand side first.  A
    [for] runs over a sequence the kernel holds in full. *)
Fixpoint exec (s : stmt) : M unit :=
  match s with
  | SMagic line => libop (EvMagic line) ;; mret tt
  | SImport module asname =>
      libop (EvImport module None) ;;
      bind_name (default module asname) (VModule module)
  | SImportFrom module name asname =>
      libop (EvImport module (Some name)) ;;
      bind_name (default name asname) (VSymbol module name)
  | SAssign t value => v ← eval value; assign t v
  | SExpr e => eval e ;; mret tt
  | SFor t iter body =>
      it ← eval iter;
      match it with
      | VList items | VTuple items =>
          forM_ (λ item, assign t item ;; forM_ exec body) items
      | _ => raise "Unmodelled"
      end
  | SIf test body orelse =>
      c ← eval test;
      match c with
      | VBool true => forM_ exec body
      | VBool false => forM_ exec orelse
      | _ => raise "Unmodelled"
      end
  | STry body handler => catch (forM_ exec body) (forM_ exec handler)
  | SOther _ => raise "Unmodelled"
  end.

Definition exec_block (body : list stmt) : M unit := forM_ exec body.

Definition run_cell (i : nat) (c : cell) : M unit :=
  match c with
  | Markdown _ => mret tt
  | Code source => λ st, exec_block source (State (globals st) (trace st) (reads st) i)
  end.

Fixpoint run_cells (i : nat) (cells : list cell) : M unit :=
  match cells with
  | [] => mret tt
  | c :: cells' => run_cell i c ;; run_cells (S i) cells'
  end.

End Semantics.

Definition fresh : state := State [] [] [] 0.

(** Run All: the cells in order, from a fresh kernel, stopping at the first
    exception a cell lets through. *)
Definition run_all (lib : nat → option string) (nb : list cell) : outcome unit * state :=
  run_cells lib 0 nb fresh.

(** The library that never raises. *)
Definition quiet : nat → option string := λ _, None.

(** The first of the [len] positions from [k] on that the library fails. *)
Fixpoint first_fault (lib : nat → option string) (k len : nat) : option (nat * string) :=
  match len with
  | O => None
  | S len' =>
      match lib k with
      | Some x => Some (k, x)
      | None => first_fault lib (S k) len'
      end
  end.

(** [follows lib m mq]: from every state, [m] (run against [lib]) does what
    [mq] (run against the quiet library) does, up to the first operation
    of [mq] that [lib] fails; there [m] raises what [lib] answered. *)
Definition follows (lib : nat → option string) {A} (m mq : M A) : Prop := ∀ st, ∃ new,
  trace (mq st).2 = trace st ++ new ∧
  reads st `prefix_of` reads (mq st).2 ∧
  match first_fault lib (length (trace st)) (length new) with
  | None => m st = mq st
  | Some (n, x) =>
      (m st).1 = Raised x ∧
      trace (m st).2 = take (S n) (trace (mq st).2) ∧
      reads (m st).2 `prefix_of` reads (mq st).2
  end.

(** ** Syntactic surveys *)

Fixpoint try_free (s : stmt) : bool :=
  match s with
  | STry _ _ => false
  | SFor _ _ body => forallb try_free body
  | SIf _ body orelse => forallb try_free body && forallb try_free orelse
  | _ => true
  end.

Definition cell_try_free (c : cell) : bool :=
  match c with
  | Markdown _ => true
  | Code source => forallb try_free source
  end.

(** Every statement of a statement, itself included. *)
Fixpoint substmts (s : stmt) : list stmt :=
  s :: match s with
       | SFor _ _ body => concat (map substmts body)
       | SIf _ body orelse => concat (map substmts body) ++ concat (map substmts orelse)
       | STry body handler => concat (map substmts body) ++ concat (map substmts handler)
       | _ => []
       end.

(** Every expression of an expression, itself included. *)
Fixpoint subexprs (e : expr) : list expr :=
  e :: match e with
       | EAttribute e' _ => subexprs e'
       | ECall func args keywords =>
           subexprs func ++ concat (map subexprs args)
             ++ concat (map (λ '(_, a), subexprs a) keywords)
       | ETuple elts | EList elts => concat (map subexprs elts)
       | EDict items => concat (map (λ '(k, a), subexprs k ++ subexprs a) items)
       | EListComp elt _ iter => subexprs elt ++ subexprs iter
       | EBinOp l _ r | ENotEq l r | ESubscript l r => subexprs l ++ subexprs r
       | ESlice lower upper =>
           from_option subexprs [] lower ++ from_option subexprs [] upper
       | _ => []
       end.

Definition target_exprs (t : target) : list expr :=
  match t with
  | TAttribute e _ => [e]
  | TSubscript e key => [e; key]
  | _ => []
  end.

(** The expressions a statement holds directly. *)
Definition own_exprs (s : stmt) : list expr :=
  match s with
  | SAssign t value => target_exprs t ++ [value]
  | SExpr e => [e]
  | SFor t iter _ => target_exprs t ++ [iter]
  | SIf test _ _ => [test]
  | _ => []
  end.

Definition source_of (c : cell) : list stmt :=
  match c with
  | Markdown _ => []
  | Code source => source
  end.

Definition stmts_of (c : cell) : list stmt := concat (map substmts (source_of c)).
Definition exprs_of (c : cell) : list expr :=
  concat (map subexprs (concat (map own_exprs (stmts_of c)))).

(** The unmodelled constructs a cell uses. *)
Definition constructs_of (c : cell) : list construct :=
  omap (λ s, match s with SOther k => Some k | _ => None end) (stmts_of c)
  ++ omap (λ e, match e with EOther k => Some k | _ => None end) (exprs_of c).

Definition has_try (c : cell) : bool :=
  existsb (λ s, match s with STry _ _ => true | _ => false end) (stmts_of c).

(** The call expressions of a cell whose function is an attribute of the
    name [m]: the calls written [m.f(...)]. *)
Definition calls_on (m : string) (c : cell) : list expr :=
  List.filter (λ e, match e with
                    | ECall (EAttribute (EName x) _) _ _ => String.eqb x m
                    | _ => false
                    end) (exprs_of c).

(** The modules a cell imports. *)
Definition imports_of (c : cell) : list string :=
  omap (λ s, match s with
             | SImport m _ | SImportFrom m _ _ => Some m
             | _ => None
             end) (stmts_of c).

(** The top-level package of a dotted module path. *)
Fixpoint package (path : string) : string :=
  match path with
  | EmptyString => EmptyString
  | String c rest => if Ascii.eqb c "."%char then EmptyString else String c (package rest)
  end.

(** The indices of the cells that satisfy [p]. *)
Definition cells_where (p : cell → bool) (nb : list cell) : list nat :=
  omap (λ ic, if p ic.2 then Some ic.1 else None) (imap pair nb).
(** ** The notebook

    Each code cell is transcribed statement by statement; its Python source
    is quoted above it (comment lines of the source included, blank lines
    dropped).  [$"x"] is the Python name [x], [e ∙ "a"] the attribute [e.a]
    and ["x" ::= e] the assignment [x = e]. *)

Notation "$ x" := (EName x) (at level 1, x at level 0, format "$ x").
Notation "e ∙ a" := (EAttribute e a) (at level 2, left associativity).
Notation "x ::= e" := (SAssign (TName x) e) (at level 70, no associativity).

(** Cell 2.
<<
     %matplotlib inline
     # Things we'll need later
     import time
     import numpy as np
     import matplotlib.pyplot as plt
     from sklearn.metrics import mean_squared_error as mse
     from sklearn.metrics import r2_score
     from sklearn.metrics import classification_report
     from sklearn import cross_validation as cv
     # Load the example datasets
     from sklearn.datasets import load_boston
     from sklearn.datasets import load_iris
     from sklearn.datasets import load_diabetes
     from sklearn.datasets import load_digits
     from sklearn.datasets import load_linnerud
     # Boston house prices dataset (reals, regression)
     boston = load_boston()
     print("Boston: %i samples %i features" % boston.data.shape)
     # Iris flower dataset (reals, multi-label classification)
     iris   = load_iris()
     print("Iris: %i samples %i features" % iris.data.shape)
     # Diabetes dataset (reals, regression)
     diabetes = load_diabetes()
     print("Diabetes: %i samples %i features" % diabetes.data.shape)
     # Hand-written digit dataset (multi-label classification)
     digits = load_digits()
     print("Digits: %i samples %i features" % digits.data.shape)
     # Linnerud psychological and exercise dataset (multivariate regression)
     linnerud = load_linnerud()
     print("Linnerud: %i samples %i features" % linnerud.data.shape)
>> *)
Definition cell_2 : list stmt :=
  [SMagic "matplotlib inline";
   SImport "time" None;
   SImport "numpy" (Some "np");
   SImport "matplotlib.pyplot" (Some "plt");
   SImportFrom "sklearn.metrics" "mean_squared_error" (Some "mse");
   SImportFrom "sklearn.metrics" "r2_score" None;
   SImportFrom "sklearn.metrics" "classification_report" None;
   SImportFrom "sklearn" "cross_validation" (Some "cv");
   SImportFrom "sklearn.datasets" "load_boston" None;
   SImportFrom "sklearn.datasets" "load_iris" None;
   SImportFrom "sklearn.datasets" "load_diabetes" None;
   SImportFrom "sklearn.datasets" "load_digits" None;
   SImportFrom "sklearn.datasets" "load_linnerud" None;
   "boston" ::= ECall $"load_boston" [] [];
   SExpr (ECall $"print"
            [EBinOp (EStr "Boston: %i samples %i features") Mod
               ($"boston" ∙ "data" ∙ "shape")]
            []);
   "iris" ::= ECall $"load_iris" [] [];
   SExpr (ECall $"print"
            [EBinOp (EStr "Iris: %i samples %i features") Mod ($"iris" ∙ "data" ∙ "shape")]
            []);
   "diabetes" ::= ECall $"load_diabetes" [] [];
   SExpr (ECall $"print"
            [EBinOp (EStr "Diabetes: %i samples %i features") Mod
               ($"diabetes" ∙ "data" ∙ "shape")]
            []);
   "digits" ::= ECall $"load_digits" [] [];
   SExpr (ECall $"print"
            [EBinOp (EStr "Digits: %i samples %i features") Mod
               ($"digits" ∙ "data" ∙ "shape")]
            []);
   "linnerud" ::= ECall $"load_linnerud" [] [];
   SExpr (ECall $"print"
            [EBinOp (EStr "Linnerud: %i samples %i features") Mod
               ($"linnerud" ∙ "data" ∙ "shape")]
            [])].

(** Cell 4.
<<
     import pandas as pd
     from pandas.tools.plotting import scatter_matrix, radviz
     df = pd.DataFrame(iris.data)
     df.columns = iris.feature_names
     cmap = {0:'r', 1:'b', 2:'g'}
     colors = [cmap[t] for t in iris.target]
     fig = scatter_matrix(df, alpha=0.4, figsize=(16, 10), diagonal='kde', color=colors)
>> *)
Definition cell_4 : list stmt :=
  [SImport "pandas" (Some "pd");
   SImportFrom "pandas.tools.plotting" "scatter_matrix" None;
   SImportFrom "pandas.tools.plotting" "radviz" None;
   "df" ::= ECall ($"pd" ∙ "DataFrame") [$"iris" ∙ "data"] [];
   SAssign (TAttribute $"df" "columns") ($"iris" ∙ "feature_names");
   "cmap" ::= EDict [(ENum 0, EStr "r"); (ENum 1, EStr "b"); (ENum 2, EStr "g")];
   "colors" ::= EListComp (ESubscript $"cmap" $"t") "t" ($"iris" ∙ "target");
   "fig" ::=
     ECall $"scatter_matrix"
       [$"df"]
       [("alpha", EDec 4 1);
        ("figsize", ETuple [ENum 16; ENum 10]);
        ("diagonal", EStr "kde");
        ("color", $"colors")]].

(** Cell 5.
<<
     plt.figure(figsize=(12,12))
     df['species'] = [iris.target_names[idx] for idx in iris.target]
     radviz(df,'species', color=['r', 'g', 'b'])
>> *)
Definition cell_5 : list stmt :=
  [SExpr (ECall ($"plt" ∙ "figure") [] [("figsize", ETuple [ENum 12; ENum 12])]);
   SAssign (TSubscript $"df" (EStr "species"))
     (EListComp (ESubscript ($"iris" ∙ "target_names") $"idx") "idx" ($"iris" ∙ "target"));
   SExpr (ECall $"radviz"
            [$"df"; EStr "species"]
            [("color", EList [EStr "r"; EStr "g"; EStr "b"])])].

(** Cell 6.
<<
     df = pd.DataFrame(diabetes.data)
     fig = scatter_matrix(df, alpha=0.2, figsize=(16, 10), diagonal='kde')
>> *)
Definition cell_6 : list stmt :=
  ["df" ::= ECall ($"pd" ∙ "DataFrame") [$"diabetes" ∙ "data"] [];
   "fig" ::=
     ECall $"scatter_matrix"
       [$"df"]
       [("alpha", EDec 2 1);
        ("figsize", ETuple [ENum 16; ENum 10]);
        ("diagonal", EStr "kde")]].

(** Cell 7.
<<
     import random
     plt.figure(1, figsize=(3, 3))
     plt.imshow(digits.images[-1], cmap=plt.cm.gray_r, interpolation='nearest')
     plt.show()
>> *)
Definition cell_7 : list stmt :=
  [SImport "random" None;
   SExpr (ECall ($"plt" ∙ "figure") [ENum 1] [("figsize", ETuple [ENum 3; ENum 3])]);
   SExpr (ECall ($"plt" ∙ "imshow")
            [ESubscript ($"digits" ∙ "images") (ENum (-1))]
            [("cmap", $"plt" ∙ "cm" ∙ "gray_r"); ("interpolation", EStr "nearest")]);
   SExpr (ECall ($"plt" ∙ "show") [] [])].

(** Cell 10.
<<
     from sklearn.linear_model import LinearRegression
     # Fit regression to diabetes dataset
     model = LinearRegression()
     model.fit(diabetes.data, diabetes.target)
     expected  = diabetes.target
     predicted = model.predict(diabetes.data)
     # Evaluate fit of the model
     print("Mean Squared Error: %0.3f" % mse(expected, predicted))
     print("Coefficient of Determination: %0.3f" % r2_score(expected, predicted))
>> *)
Definition cell_10 : list stmt :=
  [SImportFrom "sklearn.linear_model" "LinearRegression" None;
   "model" ::= ECall $"LinearRegression" [] [];
   SExpr (ECall ($"model" ∙ "fit") [$"diabetes" ∙ "data"; $"diabetes" ∙ "target"] []);
   "expected" ::= $"diabetes" ∙ "target";
   "predicted" ::= ECall ($"model" ∙ "predict") [$"diabetes" ∙ "data"] [];
   SExpr (ECall $"print"
            [EBinOp (EStr "Mean Squared Error: %0.3f") Mod
               (ECall $"mse" [$"expected"; $"predicted"] [])]
            []);
   SExpr (ECall $"print"
            [EBinOp (EStr "Coefficient of Determination: %0.3f") Mod
               (ECall $"r2_score" [$"expected"; $"predicted"] [])]
            [])].

(** Cell 12.
<<
     from sklearn.linear_model import Perceptron
     model = Perceptron()
     model.fit(diabetes.data, diabetes.target)
     expected  = diabetes.target
     predicted = model.predict(diabetes.data)
     # Evaluate fit of the model
     print("Mean Squared Error: %0.3f" % mse(expected, predicted))
     print("Coefficient of Determination: %0.3f" % r2_score(expected, predicted))
>> *)
Definition cell_12 : list stmt :=
  [SImportFrom "sklearn.linear_model" "Perceptron" None;
   "model" ::= ECall $"Perceptron" [] [];
   SExpr (ECall ($"model" ∙ "fit") [$"diabetes" ∙ "data"; $"diabetes" ∙ "target"] []);
   "expected" ::= $"diabetes" ∙ "target";
   "predicted" ::= ECall ($"model" ∙ "predict") [$"diabetes" ∙ "data"] [];
   SExpr (ECall $"print"
            [EBinOp (EStr "Mean Squared Error: %0.3f") Mod
               (ECall $"mse" [$"expected"; $"predicted"] [])]
            []);
   SExpr (ECall $"print"
            [EBinOp (EStr "Coefficient of Determination: %0.3f") Mod
               (ECall $"r2_score" [$"expected"; $"predicted"] [])]
            [])].

(** Cell 14.
<<
     from sklearn.neighbors import KNeighborsRegressor
     model = KNeighborsRegressor()
     model.fit(diabetes.data, diabetes.target)
     expected  = diabetes.target
     predicted = model.predict(diabetes.data)
     # Evaluate fit of the model
     print("Mean Squared Error: %0.3f" % mse(expected, predicted))
     print("Coefficient of Determination: %0.3f" % r2_score(expected, predicted))
>> *)
Definition cell_14 : list stmt :=
  [SImportFrom "sklearn.neighbors" "KNeighborsRegressor" None;
   "model" ::= ECall $"KNeighborsRegressor" [] [];
   SExpr (ECall ($"model" ∙ "fit") [$"diabetes" ∙ "data"; $"diabetes" ∙ "target"] []);
   "expected" ::= $"diabetes" ∙ "target";
   "predicted" ::= ECall ($"model" ∙ "predict") [$"diabetes" ∙ "data"] [];
   SExpr (ECall $"print"
            [EBinOp (EStr "Mean Squared Error: %0.3f") Mod
               (ECall $"mse" [$"expected"; $"predicted"] [])]
            []);
   SExpr (ECall $"print"
            [EBinOp (EStr "Coefficient of Determination: %0.3f") Mod
               (ECall $"r2_score" [$"expected"; $"predicted"] [])]
            [])].

(** Cell 16.
<<
     from sklearn.tree import DecisionTreeRegressor
     model = DecisionTreeRegressor()
     model.fit(diabetes.data, diabetes.target)
     expected  = diabetes.target
     predicted = model.predict(diabetes.data)
     # Evaluate fit of the model
     print("Mean Squared Error: %0.3f" % mse(expected, predicted))
     print("Coefficient of Determination: %0.3f" % r2_score(expected, predicted))
>> *)
Definition cell_16 : list stmt :=
  [SImportFrom "sklearn.tree" "DecisionTreeRegressor" None;
   "model" ::= ECall $"DecisionTreeRegressor" [] [];
   SExpr (ECall ($"model" ∙ "fit") [$"diabetes" ∙ "data"; $"diabetes" ∙ "target"] []);
   "expected" ::= $"diabetes" ∙ "target";
   "predicted" ::= ECall ($"model" ∙ "predict") [$"diabetes" ∙ "data"] [];
   SExpr (ECall $"print"
            [EBinOp (EStr "Mean Squared Error: %0.3f") Mod
               (ECall $"mse" [$"expected"; $"predicted"] [])]
            []);
   SExpr (ECall $"print"
            [EBinOp (EStr "Coefficient of Determination: %0.3f") Mod
               (ECall $"r2_score" [$"expected"; $"predicted"] [])]
            [])].

(** Cell 18.
<<
     from sklearn.ensemble import RandomForestRegressor
     model = RandomForestRegressor()
     model.fit(diabetes.data, diabetes.target)
     expected  = diabetes.target
     predicted = model.predict(diabetes.data)
     # Evaluate fit of the model
     print("Mean Squared Error: %0.3f" % mse(expected, predicted))
     print("Coefficient of Determination: %0.3f" % r2_score(expected, predicted))
>> *)
Definition cell_18 : list stmt :=
  [SImportFrom "sklearn.ensemble" "RandomForestRegressor" None;
   "model" ::= ECall $"RandomForestRegressor" [] [];
   SExpr (ECall ($"model" ∙ "fit") [$"diabetes" ∙ "data"; $"diabetes" ∙ "target"] []);
   "expected" ::= $"diabetes" ∙ "target";
   "predicted" ::= ECall ($"model" ∙ "predict") [$"diabetes" ∙ "data"] [];
   SExpr (ECall $"print"
            [EBinOp (EStr "Mean Squared Error: %0.3f") Mod
               (ECall $"mse" [$"expected"; $"predicted"] [])]
            []);
   SExpr (ECall $"print"
            [EBinOp (EStr "Coefficient of Determination: %0.3f") Mod
               (ECall $"r2_score" [$"expected"; $"predicted"] [])]
            [])].

(** Cell 20.
<<
     from sklearn.ensemble import AdaBoostRegressor
     model = AdaBoostRegressor()
     model.fit(diabetes.data, diabetes.target)
     expected  = diabetes.target
     predicted = model.predict(diabetes.data)
     # Evaluate fit of the model
     print("Mean Squared Error: %0.3f" % mse(expected, predicted))
     print("Coefficient of Determination: %0.3f" % r2_score(expected, predicted))
>> *)
Definition cell_20 : list stmt :=
  [SImportFrom "sklearn.ensemble" "AdaBoostRegressor" None;
   "model" ::= ECall $"AdaBoostRegressor" [] [];
   SExpr (ECall ($"model" ∙ "fit") [$"diabetes" ∙ "data"; $"diabetes" ∙ "target"] []);
   "expected" ::= $"diabetes" ∙ "target";
   "predicted" ::= ECall ($"model" ∙ "predict") [$"diabetes" ∙ "data"] [];
   SExpr (ECall $"print"
            [EBinOp (EStr "Mean Squared Error: %0.3f") Mod
               (ECall $"mse" [$"expected"; $"predicted"] [])]
            []);
   SExpr (ECall $"print"
            [EBinOp (EStr "Coefficient of Determination: %0.3f") Mod
               (ECall $"r2_score" [$"expected"; $"predicted"] [])]
            [])].

(** Cell 22.
<<
     from sklearn.svm import SVR
     model = SVR()
     model.fit(diabetes.data, diabetes.target)
     expected  = diabetes.target
     predicted = model.predict(diabetes.data)
     # Evaluate fit of the model
     print("Mean Squared Error: %0.3f" % mse(expected, predicted))
     print("Coefficient of Determination: %0.3f" % r2_score(expected, predicted))
>> *)
Definition cell_22 : list stmt :=
  [SImportFrom "sklearn.svm" "SVR" None;
   "model" ::= ECall $"SVR" [] [];
   SExpr (ECall ($"model" ∙ "fit") [$"diabetes" ∙ "data"; $"diabetes" ∙ "target"] []);
   "expected" ::= $"diabetes" ∙ "target";
   "predicted" ::= ECall ($"model" ∙ "predict") [$"diabetes" ∙ "data"] [];
   SExpr (ECall $"print"
            [EBinOp (EStr "Mean Squared Error: %0.3f") Mod
               (ECall $"mse" [$"expected"; $"predicted"] [])]
            []);
   SExpr (ECall $"print"
            [EBinOp (EStr "Coefficient of Determination: %0.3f") Mod
               (ECall $"r2_score" [$"expected"; $"predicted"] [])]
            [])].

(** Cell 24.
<<
     from sklearn.linear_model import Ridge
     model = Ridge(alpha=0.1)
     model.fit(diabetes.data, diabetes.target)
     expected  = diabetes.target
     predicted = model.predict(diabetes.data)
     # Evaluate fit of the model
     print("Mean Squared Error: %0.3f" % mse(expected, predicted))
     print("Coefficient of Determination: %0.3f" % r2_score(expected, predicted))
>> *)
Definition cell_24 : list stmt :=
  [SImportFrom "sklearn.linear_model" "Ridge" None;
   "model" ::= ECall $"Ridge" [] [("alpha", EDec 1 1)];
   SExpr (ECall ($"model" ∙ "fit") [$"diabetes" ∙ "data"; $"diabetes" ∙ "target"] []);
   "expected" ::= $"diabetes" ∙ "target";
   "predicted" ::= ECall ($"model" ∙ "predict") [$"diabetes" ∙ "data"] [];
   SExpr (ECall $"print"
            [EBinOp (EStr "Mean Squared Error: %0.3f") Mod
               (ECall $"mse" [$"expected"; $"predicted"] [])]
            []);
   SExpr (ECall $"print"
            [EBinOp (EStr "Coefficient of Determination: %0.3f") Mod
               (ECall $"r2_score" [$"expected"; $"predicted"] [])]
            [])].

(** Cell 26.
<<
     from sklearn.linear_model import Lasso
     model = Lasso(alpha=0.1)
     model.fit(diabetes.data, diabetes.target)
     expected  = diabetes.target
     predicted = model.predict(diabetes.data)
     # Evaluate fit of the model
     print("Mean Squared Error: %0.3f" % mse(expected, predicted))
     print("Coefficient of Determination: %0.3f" % r2_score(expected, predicted))
>> *)
Definition cell_26 : list stmt :=
  [SImportFrom "sklearn.linear_model" "Lasso" None;
   "model" ::= ECall $"Lasso" [] [("alpha", EDec 1 1)];
   SExpr (ECall ($"model" ∙ "fit") [$"diabetes" ∙ "data"; $"diabetes" ∙ "target"] []);
   "expected" ::= $"diabetes" ∙ "target";
   "predicted" ::= ECall ($"model" ∙ "predict") [$"diabetes" ∙ "data"] [];
   SExpr (ECall $"print"
            [EBinOp (EStr "Mean Squared Error: %0.3f") Mod
               (ECall $"mse" [$"expected"; $"predicted"] [])]
            []);
   SExpr (ECall $"print"
            [EBinOp (EStr "Coefficient of Determination: %0.3f") Mod
               (ECall $"r2_score" [$"expected"; $"predicted"] [])]
            [])].

(** Cell 29.
<<
     from sklearn.linear_model import LogisticRegression
     splits     = cv.train_test_split(iris.data, iris.target, test_size=0.2)
     X_train, X_test, y_train, y_test = splits
     model      = LogisticRegression()
     model.fit(X_train, y_train)
     expected   = y_test
     predicted  = model.predict(X_test)
     print(classification_report(expected, predicted))
>> *)
Definition cell_29 : list stmt :=
  [SImportFrom "sklearn.linear_model" "LogisticRegression" None;
   "splits" ::=
     ECall ($"cv" ∙ "train_test_split")
       [$"iris" ∙ "data"; $"iris" ∙ "target"]
       [("test_size", EDec 2 1)];
   SAssign (TTuple ["X_train"; "X_test"; "y_train"; "y_test"]) $"splits";
   "model" ::= ECall $"LogisticRegression" [] [];
   SExpr (ECall ($"model" ∙ "fit") [$"X_train"; $"y_train"] []);
   "expected" ::= $"y_test";
   "predicted" ::= ECall ($"model" ∙ "predict") [$"X_test"] [];
   SExpr (ECall $"print" [ECall $"classification_report" [$"expected"; $"predicted"] []] [])].

(** Cell 31.
<<
     from sklearn.lda import LDA
     splits     = cv.train_test_split(digits.data, digits.target, test_size=0.2)
     X_train, X_test, y_train, y_test = splits
     model      = LDA()
     model.fit(X_train, y_train)
     expected   = y_test
     predicted  = model.predict(X_test)
     print(classification_report(expected, predicted))
>> *)
Definition cell_31 : list stmt :=
  [SImportFrom "sklearn.lda" "LDA" None;
   "splits" ::=
     ECall ($"cv" ∙ "train_test_split")
       [$"digits" ∙ "data"; $"digits" ∙ "target"]
       [("test_size", EDec 2 1)];
   SAssign (TTuple ["X_train"; "X_test"; "y_train"; "y_test"]) $"splits";
   "model" ::= ECall $"LDA" [] [];
   SExpr (ECall ($"model" ∙ "fit") [$"X_train"; $"y_train"] []);
   "expected" ::= $"y_test";
   "predicted" ::= ECall ($"model" ∙ "predict") [$"X_test"] [];
   SExpr (ECall $"print" [ECall $"classification_report" [$"expected"; $"predicted"] []] [])].

(** Cell 33.
<<
     from sklearn.naive_bayes import GaussianNB
     splits     = cv.train_test_split(iris.data, iris.target, test_size=0.2)
     X_train, X_test, y_train, y_test = splits
     model      = GaussianNB()
     model.fit(X_train, y_train)
     expected   = y_test
     predicted  = model.predict(X_test)
     print(classification_report(expected, predicted))
>> *)
Definition cell_33 : list stmt :=
  [SImportFrom "sklearn.naive_bayes" "GaussianNB" None;
   "splits" ::=
     ECall ($"cv" ∙ "train_test_split")
       [$"iris" ∙ "data"; $"iris" ∙ "target"]
       [("test_size", EDec 2 1)];
   SAssign (TTuple ["X_train"; "X_test"; "y_train"; "y_test"]) $"splits";
   "model" ::= ECall $"GaussianNB" [] [];
   SExpr (ECall ($"model" ∙ "fit") [$"X_train"; $"y_train"] []);
   "expected" ::= $"y_test";
   "predicted" ::= ECall ($"model" ∙ "predict") [$"X_test"] [];
   SExpr (ECall $"print" [ECall $"classification_report" [$"expected"; $"predicted"] []] [])].

(** Cell 35.
<<
     from sklearn.neighbors import KNeighborsClassifier
     splits = cv.train_test_split(digits.data, digits.target, test_size=0.2)
     X_train, X_test, y_train, y_test = splits
     model= KNeighborsClassifier(20)
     model.fit(X_train, y_train)
     expected = y_test
     predicted = model.predict(X_test)
     print(classification_report(expected, predicted))
     #help(KNeighborsClassifier)
>> *)
Definition cell_35 : list stmt :=
  [SImportFrom "sklearn.neighbors" "KNeighborsClassifier" None;
   "splits" ::=
     ECall ($"cv" ∙ "train_test_split")
       [$"digits" ∙ "data"; $"digits" ∙ "target"]
       [("test_size", EDec 2 1)];
   SAssign (TTuple ["X_train"; "X_test"; "y_train"; "y_test"]) $"splits";
   "model" ::= ECall $"KNeighborsClassifier" [ENum 20] [];
   SExpr (ECall ($"model" ∙ "fit") [$"X_train"; $"y_train"] []);
   "expected" ::= $"y_test";
   "predicted" ::= ECall ($"model" ∙ "predict") [$"X_test"] [];
   SExpr (ECall $"print" [ECall $"classification_report" [$"expected"; $"predicted"] []] [])].

(** Cell 37.
<<
     from sklearn.tree import DecisionTreeClassifier
     splits = cv.train_test_split(iris.data, iris.target, test_size=0.2)
     X_train, X_test, y_train, y_test = splits
     model = DecisionTreeClassifier()
     model.fit(X_train, y_train)
     expected = y_test
     predicted = model.predict(X_test)
     print(classification_report(expected, predicted))
     #help(DecisionTreeClassifier)
>> *)
Definition cell_37 : list stmt :=
  [SImportFrom "sklearn.tree" "DecisionTreeClassifier" None;
   "splits" ::=
     ECall ($"cv" ∙ "train_test_split")
       [$"iris" ∙ "data"; $"iris" ∙ "target"]
       [("test_size", EDec 2 1)];
   SAssign (TTuple ["X_train"; "X_test"; "y_train"; "y_test"]) $"splits";
   "model" ::= ECall $"DecisionTreeClassifier" [] [];
   SExpr (ECall ($"model" ∙ "fit") [$"X_train"; $"y_train"] []);
   "expected" ::= $"y_test";
   "predicted" ::= ECall ($"model" ∙ "predict") [$"X_test"] [];
   SExpr (ECall $"print" [ECall $"classification_report" [$"expected"; $"predicted"] []] [])].

(** Cell 39.
<<
     from sklearn.svm import SVC
     kernels = ['linear', 'poly', 'rbf']
     splits     = cv.train_test_split(digits.data, digits.target, test_size=0.2)
     X_train, X_test, y_train, y_test = splits
     for kernel in kernels:
         if kernel != 'poly':
             model      = SVC(kernel=kernel)
         else:
             model      = SVC(kernel=kernel, degree=3)
         model.fit(X_train, y_train)
         expected   = y_test
         predicted  = model.predict(X_test)
         print(classification_report(expected, predicted))
>> *)
Definition cell_39 : list stmt :=
  [SImportFrom "sklearn.svm" "SVC" None;
   "kernels" ::= EList [EStr "linear"; EStr "poly"; EStr "rbf"];
   "splits" ::=
     ECall ($"cv" ∙ "train_test_split")
       [$"digits" ∙ "data"; $"digits" ∙ "target"]
       [("test_size", EDec 2 1)];
   SAssign (TTuple ["X_train"; "X_test"; "y_train"; "y_test"]) $"splits";
   SFor (TName "kernel") $"kernels"
     [SIf (ENotEq $"kernel" (EStr "poly"))
        ["model" ::= ECall $"SVC" [] [("kernel", $"kernel")]]
        ["model" ::= ECall $"SVC" [] [("kernel", $"kernel"); ("degree", ENum 3)]];
      SExpr (ECall ($"model" ∙ "fit") [$"X_train"; $"y_train"] []);
      "expected" ::= $"y_test";
      "predicted" ::= ECall ($"model" ∙ "predict") [$"X_test"] [];
      SExpr (ECall $"print"
               [ECall $"classification_report" [$"expected"; $"predicted"] []]
               [])]].

(** Cell 41.
<<
     from sklearn.ensemble import RandomForestClassifier
     splits     = cv.train_test_split(digits.data, digits.target, test_size=0.2)
     X_train, X_test, y_train, y_test = splits
     model      = RandomForestClassifier()
     model.fit(X_train, y_train)
     expected   = y_test
     predicted  = model.predict(X_test)
     print(classification_report(expected, predicted))
>> *)
Definition cell_41 : list stmt :=
  [SImportFrom "sklearn.ensemble" "RandomForestClassifier" None;
   "splits" ::=
     ECall ($"cv" ∙ "train_test_split")
       [$"digits" ∙ "data"; $"digits" ∙ "target"]
       [("test_size", EDec 2 1)];
   SAssign (TTuple ["X_train"; "X_test"; "y_train"; "y_test"]) $"splits";
   "model" ::= ECall $"RandomForestClassifier" [] [];
   SExpr (ECall ($"model" ∙ "fit") [$"X_train"; $"y_train"] []);
   "expected" ::= $"y_test";
   "predicted" ::= ECall ($"model" ∙ "predict") [$"X_test"] [];
   SExpr (ECall $"print" [ECall $"classification_report" [$"expected"; $"predicted"] []] [])].

(** Cell 44.
<<
     from sklearn.datasets import make_circles
     from sklearn.datasets import make_moons
     from sklearn.datasets import make_blobs
     from sklearn.preprocessing import StandardScaler
     N = 1000 # Number of samples in each cluster
     # Some colors for later
     colors = np.array([x for x in 'bgrcmykbgrcmykbgrcmykbgrcmyk'])
     colors = np.hstack([colors] * 20)
     circles = make_circles(n_samples=N, factor=.5, noise=.05)
     moons   = make_moons(n_samples=N, noise=.08)
     blobs   = make_blobs(n_samples=N, random_state=9)
     noise   = np.random.rand(N, 2), None
     # Let's see what the data looks like!
     fig, axe = plt.subplots(figsize=(18, 4))
     for idx, dataset in enumerate((circles, moons, blobs, noise)):
         X, y = dataset
         X = StandardScaler().fit_transform(X)
         plt.subplot(1,4,idx+1)
         plt.scatter(X[:,0], X[:,1], marker='.')
         plt.xticks(())
         plt.yticks(())
         plt.ylabel('$x_1$')
         plt.xlabel('$x_0$')
     plt.show()
>> *)
Definition cell_44 : list stmt :=
  [SImportFrom "sklearn.datasets" "make_circles" None;
   SImportFrom "sklearn.datasets" "make_moons" None;
   SImportFrom "sklearn.datasets" "make_blobs" None;
   SImportFrom "sklearn.preprocessing" "StandardScaler" None;
   "N" ::= ENum 1000;
   "colors" ::=
     ECall ($"np" ∙ "array") [EListComp $"x" "x" (EStr "bgrcmykbgrcmykbgrcmykbgrcmyk")] [];
   "colors" ::= ECall ($"np" ∙ "hstack") [EBinOp (EList [$"colors"]) Mult (ENum 20)] [];
   "circles" ::=
     ECall $"make_circles"
       []
       [("n_samples", $"N"); ("factor", EDec 5 1); ("noise", EDec 5 2)];
   "moons" ::= ECall $"make_moons" [] [("n_samples", $"N"); ("noise", EDec 8 2)];
   "blobs" ::= ECall $"make_blobs" [] [("n_samples", $"N"); ("random_state", ENum 9)];
   "noise" ::= ETuple [ECall ($"np" ∙ "random" ∙ "rand") [$"N"; ENum 2] []; ENone];
   SAssign (TTuple ["fig"; "axe"])
     (ECall ($"plt" ∙ "subplots") [] [("figsize", ETuple [ENum 18; ENum 4])]);
   SFor (TTuple ["idx"; "dataset"])
       (ECall $"enumerate" [ETuple [$"circles"; $"moons"; $"blobs"; $"noise"]] [])
     [SAssign (TTuple ["X"; "y"]) $"dataset";
      "X" ::= ECall ((ECall $"StandardScaler" [] []) ∙ "fit_transform") [$"X"] [];
      SExpr (ECall ($"plt" ∙ "subplot") [ENum 1; ENum 4; EBinOp $"idx" Add (ENum 1)] []);
      SExpr (ECall ($"plt" ∙ "scatter")
               [ESubscript $"X" (ETuple [ESlice None None; ENum 0]);
                ESubscript $"X" (ETuple [ESlice None None; ENum 1])]
               [("marker", EStr ".")]);
      SExpr (ECall ($"plt" ∙ "xticks") [ETuple []] []);
      SExpr (ECall ($"plt" ∙ "yticks") [ETuple []] []);
      SExpr (ECall ($"plt" ∙ "ylabel") [EStr "$x_1$"] []);
      SExpr (ECall ($"plt" ∙ "xlabel") [EStr "$x_0$"] [])];
   SExpr (ECall ($"plt" ∙ "show") [] [])].

(** Cell 46.
<<
     import warnings
     warnings.filterwarnings('ignore')
>> *)
Definition cell_46 : list stmt :=
  [SImport "warnings" None;
   SExpr (ECall ($"warnings" ∙ "filterwarnings") [EStr "ignore"] [])].

(** Cell 47.
<<
     from sklearn.cluster import MiniBatchKMeans
     fig, axe = plt.subplots(figsize=(18, 4))
     for idx, dataset in enumerate((circles, moons, blobs, noise)):
         X, y = dataset
         X = StandardScaler().fit_transform(X)
         # Fit the model with our algorithm
         model = MiniBatchKMeans(n_clusters=5)
         model.fit(X)
         # Make Predictions
         predictions = model.predict(X)
         # Find centers
         centers = model.cluster_centers_
         center_colors = colors[:len(centers)]
         plt.scatter(centers[:, 0], centers[:, 1], s=100, c=center_colors)
         plt.subplot(1,4,idx+1)
         plt.scatter(X[:, 0], X[:, 1], color=colors[predictions].tolist(), s=10)
         plt.xticks(())
         plt.yticks(())
         plt.ylabel('$x_1$')
         plt.xlabel('$x_0$')
     plt.show()
>> *)
Definition cell_47 : list stmt :=
  [SImportFrom "sklearn.cluster" "MiniBatchKMeans" None;
   SAssign (TTuple ["fig"; "axe"])
     (ECall ($"plt" ∙ "subplots") [] [("figsize", ETuple [ENum 18; ENum 4])]);
   SFor (TTuple ["idx"; "dataset"])
       (ECall $"enumerate" [ETuple [$"circles"; $"moons"; $"blobs"; $"noise"]] [])
     [SAssign (TTuple ["X"; "y"]) $"dataset";
      "X" ::= ECall ((ECall $"StandardScaler" [] []) ∙ "fit_transform") [$"X"] [];
      "model" ::= ECall $"MiniBatchKMeans" [] [("n_clusters", ENum 5)];
      SExpr (ECall ($"model" ∙ "fit") [$"X"] []);
      "predictions" ::= ECall ($"model" ∙ "predict") [$"X"] [];
      "centers" ::= $"model" ∙ "cluster_centers_";
      "center_colors" ::=
        ESubscript $"colors" (ESlice None (Some (ECall $"len" [$"centers"] [])));
      SExpr (ECall ($"plt" ∙ "scatter")
               [ESubscript $"centers" (ETuple [ESlice None None; ENum 0]);
                ESubscript $"centers" (ETuple [ESlice None None; ENum 1])]
               [("s", ENum 100); ("c", $"center_colors")]);
      SExpr (ECall ($"plt" ∙ "subplot") [ENum 1; ENum 4; EBinOp $"idx" Add (ENum 1)] []);
      SExpr (ECall ($"plt" ∙ "scatter")
               [ESubscript $"X" (ETuple [ESlice None None; ENum 0]);
                ESubscript $"X" (ETuple [ESlice None None; ENum 1])]
               [("color", ECall ((ESubscript $"colors" $"predictions") ∙ "tolist") [] []);
                ("s", ENum 10)]);
      SExpr (ECall ($"plt" ∙ "xticks") [ETuple []] []);
      SExpr (ECall ($"plt" ∙ "yticks") [ETuple []] []);
      SExpr (ECall ($"plt" ∙ "ylabel") [EStr "$x_1$"] []);
      SExpr (ECall ($"plt" ∙ "xlabel") [EStr "$x_0$"] [])];
   SExpr (ECall ($"plt" ∙ "show") [] [])].

(** Cell 49.
<<
     from sklearn.cluster import AffinityPropagation
     fig, axe = plt.subplots(figsize=(18, 4))
     for idx, dataset in enumerate((circles, moons, blobs, noise)):
         X, y = dataset
         X = StandardScaler().fit_transform(X)
         # Fit the model with our algorithm
         model = AffinityPropagation(damping=.92, preference=-200)
         model.fit(X)
         # Make Predictions
         predictions = model.predict(X)
         # Find centers
         centers = model.cluster_centers_
         center_colors = colors[:len(centers)]
         plt.scatter(centers[:, 0], centers[:, 1], s=100, c=center_colors)
         plt.subplot(1,4,idx+1)
         plt.scatter(X[:, 0], X[:, 1], color=colors[predictions].tolist(), s=10)
         plt.xticks(())
         plt.yticks(())
         plt.ylabel('$x_1$')
         plt.xlabel('$x_0$')
     plt.show()
>> *)
Definition cell_49 : list stmt :=
  [SImportFrom "sklearn.cluster" "AffinityPropagation" None;
   SAssign (TTuple ["fig"; "axe"])
     (ECall ($"plt" ∙ "subplots") [] [("figsize", ETuple [ENum 18; ENum 4])]);
   SFor (TTuple ["idx"; "dataset"])
       (ECall $"enumerate" [ETuple [$"circles"; $"moons"; $"blobs"; $"noise"]] [])
     [SAssign (TTuple ["X"; "y"]) $"dataset";
      "X" ::= ECall ((ECall $"StandardScaler" [] []) ∙ "fit_transform") [$"X"] [];
      "model" ::=
        ECall $"AffinityPropagation"
          []
          [("damping", EDec 92 2); ("preference", ENum (-200))];
      SExpr (ECall ($"model" ∙ "fit") [$"X"] []);
      "predictions" ::= ECall ($"model" ∙ "predict") [$"X"] [];
      "centers" ::= $"model" ∙ "cluster_centers_";
      "center_colors" ::=
        ESubscript $"colors" (ESlice None (Some (ECall $"len" [$"centers"] [])));
      SExpr (ECall ($"plt" ∙ "scatter")
               [ESubscript $"centers" (ETuple [ESlice None None; ENum 0]);
                ESubscript $"centers" (ETuple [ESlice None None; ENum 1])]
               [("s", ENum 100); ("c", $"center_colors")]);
      SExpr (ECall ($"plt" ∙ "subplot") [ENum 1; ENum 4; EBinOp $"idx" Add (ENum 1)] []);
      SExpr (ECall ($"plt" ∙ "scatter")
               [ESubscript $"X" (ETuple [ESlice None None; ENum 0]);
                ESubscript $"X" (ETuple [ESlice None None; ENum 1])]
               [("color", ECall ((ESubscript $"colors" $"predictions") ∙ "tolist") [] []);
                ("s", ENum 10)]);
      SExpr (ECall ($"plt" ∙ "xticks") [ETuple []] []);
      SExpr (ECall ($"plt" ∙ "yticks") [ETuple []] []);
      SExpr (ECall ($"plt" ∙ "ylabel") [EStr "$x_1$"] []);
      SExpr (ECall ($"plt" ∙ "xlabel") [EStr "$x_0$"] [])];
   SExpr (ECall ($"plt" ∙ "show") [] [])].

Definition notebook : list cell :=
  [Markdown "# A Tour of SciKit-Learn"                              (*  0 *);
   Markdown "When we talk about Data Science and the Data Sci..."   (*  1 *);
   Code cell_2                                                      (*  2 *);
   Markdown "The datasets that come with Scikit Learn demonst..."   (*  3 *);
   Code cell_4                                                      (*  4 *);
   Code cell_5                                                      (*  5 *);
   Code cell_6                                                      (*  6 *);
   Code cell_7                                                      (*  7 *);
   Markdown "## Regressions"                                        (*  8 *);
   Markdown "Regressions are a type of supervised learning al..."   (*  9 *);
   Code cell_10                                                     (* 10 *);
   Markdown "### Perceptron"                                        (* 11 *);
   Code cell_12                                                     (* 12 *);
   Markdown "### k-Nearest Neighbor Regression"                     (* 13 *);
   Code cell_14                                                     (* 14 *);
   Markdown "### Classification and Regression Trees (CART)"        (* 15 *);
   Code cell_16                                                     (* 16 *);
   Markdown "### Random Forest"                                     (* 17 *);
   Code cell_18                                                     (* 18 *);
   Markdown "### AdaBoost"                                          (* 19 *);
   Code cell_20                                                     (* 20 *);
   Markdown "### Support Vector Machines"                           (* 21 *);
   Code cell_22                                                     (* 22 *);
   Markdown "## Regularization"                                     (* 23 *);
   Code cell_24                                                     (* 24 *);
   Markdown "### LASSO"                                             (* 25 *);
   Code cell_26                                                     (* 26 *);
   Markdown "## Classification"                                     (* 27 *);
   Markdown "Classification is a supervised machine learning..."    (* 28 *);
   Code cell_29                                                     (* 29 *);
   Markdown "### LDA"                                               (* 30 *);
   Code cell_31                                                     (* 31 *);
   Markdown "### Naive Bayes"                                       (* 32 *);
   Code cell_33                                                     (* 33 *);
   Markdown "### k-Nearest Neighbor"                                (* 34 *);
   Code cell_35                                                     (* 35 *);
   Markdown "### Decision Trees"                                    (* 36 *);
   Code cell_37                                                     (* 37 *);
   Markdown "### SVMs"                                              (* 38 *);
   Code cell_39                                                     (* 39 *);
   Markdown "### Random Forest"                                     (* 40 *);
   Code cell_41                                                     (* 41 *);
   Markdown "## Clustering"                                         (* 42 *);
   Markdown "Clustering algorithms attempt to find patterns i..."   (* 43 *);
   Code cell_44                                                     (* 44 *);
   Markdown "### K-Means Clustering"                                (* 45 *);
   Code cell_46                                                     (* 46 *);
   Code cell_47                                                     (* 47 *);
   Markdown "## Affinity Propagation"                               (* 48 *);
   Code cell_49                                                     (* 49 *)].

(** ** Reading the log *)

(** A call found in the log: its position, the cell that made it, what was
    called and with which arguments. *)
Record invocation := Invocation {
  site : nat;
  at_cell : nat;
  callee : value;
  actuals : list value;
  keywords : list (string * value)
}.

Definition invocation_at (i : nat) (ce : nat * event) : option invocation :=
  match ce.2 with
  | EvCall f a k => Some (Invocation i ce.1 f a k)
  | _ => None
  end.

Definition invocations (tr : list (nat * event)) : list invocation :=
  omap id (imap invocation_at tr).

(** What an attribute or item chain hangs off. *)
Fixpoint root (v : value) : value :=
  match v with
  | VAttrOf o _ | VItemOf o _ | VElemOf o => root o
  | _ => v
  end.

(** [f] is reached through the package [pkg]. *)
Definition touches (pkg : string) (f : value) : bool :=
  match root f with
  | VModule p | VSymbol p _ => String.eqb (package p) pkg
  | _ => false
  end.

(** The calls written [m.f(...)] in the notebook, with their cells. *)
Definition calls_on_in (m : string) (nb : list cell) : list (nat * expr) :=
  concat (imap (λ i c, map (pair i) (calls_on m c)) nb).

(** *** Kinds of callee *)

(** The scikit-learn modules whose classes are estimators with [fit] and
    [predict]; [sklearn.preprocessing] holds transformers. *)
Definition estimator_modules : list string :=
  ["sklearn.linear_model"; "sklearn.neighbors"; "sklearn.tree"; "sklearn.ensemble";
   "sklearn.svm"; "sklearn.lda"; "sklearn.naive_bayes"; "sklearn.cluster"].

Definition metric_names : list string :=
  ["mean_squared_error"; "r2_score"; "classification_report"].

Definition is_estimator_class (f : value) : bool :=
  match f with
  | VSymbol m _ => bool_decide (m ∈ estimator_modules)
  | _ => false
  end.

Definition is_transformer_class (f : value) : bool :=
  match f with
  | VSymbol m _ => String.eqb m "sklearn.preprocessing"
  | _ => false
  end.

Definition is_metric (f : value) : bool :=
  match f with
  | VSymbol m n => String.eqb m "sklearn.metrics" && bool_decide (n ∈ metric_names)
  | _ => false
  end.

Definition is_print (f : value) : bool :=
  match f with
  | VBuiltin n => String.eqb n "print"
  | _ => false
  end.

Definition is_plot (f : value) : bool :=
  touches "matplotlib" f
  || match f with
     | VSymbol m _ => String.eqb m "pandas.tools.plotting"
     | _ => false
     end.

Definition is_split (f : value) : bool :=
  match f with
  | VAttrOf (VSymbol m n) a =>
      String.eqb m "sklearn" && String.eqb n "cross_validation"
      && String.eqb a "train_test_split"
  | _ => false
  end.

(** What produces a dataset: the loaders and generators of
    [sklearn.datasets], and [numpy.random.rand]. *)
Definition is_dataset_source (f : value) : bool :=
  match f with
  | VSymbol m _ => String.eqb m "sklearn.datasets"
  | VAttrOf (VAttrOf (VModule m) a) b =>
      String.eqb m "numpy" && String.eqb a "random" && String.eqb b "rand"
  | _ => false
  end.

(** [o.name(...)] *)
Definition is_method (name : string) (i : invocation) : bool :=
  match callee i with
  | VAttrOf _ a => String.eqb a name
  | _ => false
  end.

(** [o.name(...)] where [o] is the object made at site [m] *)
Definition is_method_on (m : nat) (name : string) (i : invocation) : bool :=
  match callee i with
  | VAttrOf (VObj n) a => Nat.eqb n m && String.eqb a name
  | _ => false
  end.

Definition in_cell (c : nat) (l : list invocation) : list invocation :=
  List.filter (λ i, Nat.eqb (at_cell i) c) l.

Definition count (p : invocation → bool) (l : list invocation) : nat :=
  length (List.filter p l).

Definition is_obj (n : nat) (v : value) : bool :=
  match v with
  | VObj k => Nat.eqb k n
  | _ => false
  end.

(** The sites of the objects a value is made of. *)
Fixpoint objects_in (v : value) : list nat :=
  match v with
  | VObj n => [n]
  | VTuple vs | VList vs => concat (map objects_in vs)
  | VDict kvs => concat (map (λ '(k, x), objects_in k ++ objects_in x) kvs)
  | VAttrOf o _ | VElemOf o => objects_in o
  | VItemOf o k => objects_in o ++ objects_in k
  | VSlice lo hi => from_option objects_in [] lo ++ from_option objects_in [] hi
  | _ => []
  end.

Definition made_at (p : value → bool) (l : list invocation) (n : nat) : bool :=
  existsb (λ i, if Nat.eqb (site i) n then p (callee i) else false) l.

Definition cell_of_site (l : list invocation) (n : nat) : option nat :=
  at_cell <$> List.find (λ i, Nat.eqb (site i) n) l.

(** *** What a cell does *)

Record profile := Profile {
  estimators : nat;     (* estimator objects instantiated *)
  fits : nat;           (* calls of [fit] *)
  predicts : nat;       (* calls of [predict] *)
  metrics : nat;        (* calls of a metric function *)
  prints : nat;         (* calls of [print] *)
  plots : nat           (* calls into matplotlib or pandas plotting *)
}.

Definition profile_of (l : list invocation) (c : nat) : profile :=
  let l := in_cell c l in
  Profile (count (λ i, is_estimator_class (callee i)) l)
          (count (is_method "fit") l)
          (count (is_method "predict") l)
          (count (λ i, is_metric (callee i)) l)
          (count (λ i, is_print (callee i)) l)
          (count (λ i, is_plot (callee i)) l).

(** The demonstration cells: the cells that instantiate an estimator. *)
Definition demonstration_cells (l : list invocation) (nb : list cell) : list nat :=
  List.filter (λ c, Nat.ltb 0 (estimators (profile_of l c))) (seq 0 (length nb)).

Fixpoint dedup_strings (l : list string) : list string :=
  match l with
  | [] => []
  | x :: l' => x :: List.filter (λ y, negb (String.eqb x y)) (dedup_strings l')
  end.

(** [v] is a dataset as its source returned it (or a tuple holding one). *)
Definition holds_dataset (l : list invocation) (v : value) : bool :=
  match v with
  | VObj n => made_at is_dataset_source l n
  | VTuple vs => existsb (λ x, match x with
                               | VObj n => made_at is_dataset_source l n
                               | _ => false
                               end) vs
  | _ => false
  end.

(** The names a cell reads that hold a dataset. *)
Definition datasets_read (l : list invocation) (rs : list read) (c : nat) : list string :=
  dedup_strings
    (map name_read
       (List.filter (λ r, holds_dataset l (found r))
          (List.filter (λ r, Nat.eqb (reader r) c) rs))).

(** The argument lists of the [fit] calls and of the [predict] calls of a
    cell, and for each metric call of a cell: the metric, its first argument
    and, when its second argument is the output of a [predict] call, the
    arguments of that call. *)
Definition training (l : list invocation) (c : nat) : list (list value) :=
  map actuals (List.filter (is_method "fit") (in_cell c l)).

Definition tested (l : list invocation) (c : nat) : list (list value) :=
  map actuals (List.filter (is_method "predict") (in_cell c l)).

Definition predict_at (l : list invocation) (v : value) : option (list value) :=
  match v with
  | VObj p =>
      actuals <$> List.find (λ i, Nat.eqb (site i) p && is_method "predict" i) l
  | _ => None
  end.

Definition scored (l : list invocation) (c : nat)
    : list (value * option value * option (list value)) :=
  map (λ i, (callee i, actuals i !! 0%nat,
             actuals i !! 1%nat ≫= predict_at l))
    (List.filter (λ i, is_metric (callee i)) (in_cell c l)).

(** The metric calls that take the output of site [p] as an argument. *)
Definition scored_by (l : list invocation) (p : nat) : list invocation :=
  List.filter (λ i, is_metric (callee i) && existsb (is_obj p) (actuals i)) l.

Definition model_sites (l : list invocation) : list nat :=
  map site (List.filter (λ i, is_estimator_class (callee i)) l).

Definition sites_of (p : invocation → bool) (l : list invocation) : list nat :=
  map site (List.filter p l).

(** [predict] is called on an object only after [fit] was called on it. *)
Definition fit_first (l : list invocation) (i : invocation) : bool :=
  match callee i with
  | VAttrOf o a =>
      if String.eqb a "predict" then
        match o with
        | VObj m => existsb (λ j, is_method_on m "fit" j && Nat.ltb (site j) (site i)) l
        | _ => false
        end
      else true
  | _ => true
  end.

(** A metric is computed from the output of an earlier [predict]. *)
Definition scores_a_prediction (l : list invocation) (i : invocation) : bool :=
  if is_metric (callee i) then
    match actuals i with
    | [_; VObj p] =>
        existsb (λ j, Nat.eqb (site j) p && is_method "predict" j
                      && Nat.eqb (at_cell j) (at_cell i)
                      && Nat.ltb (site j) (site i)) l
    | _ => false
    end
  else true.

(** What a printed value was computed from: the metric call whose result is
    printed, directly or formatted with [%]. *)
Definition printed_metric (tr : list (nat * event)) (i : invocation) : option value :=
  match actuals i with
  | [VObj k] =>
      match tr !! k with
      | Some (_, EvCall f _ _) => if is_metric f then Some f else None
      | Some (_, EvBinOp Mod _ (VObj j)) =>
          match tr !! j with
          | Some (_, EvCall f _ _) => if is_metric f then Some f else None
          | _ => None
          end
      | _ => None
      end
  | _ => None
  end.

(** The sites everything a value is made of was computed at, through the
    arguments and receivers of the calls that made it. *)
Fixpoint provenance (l : list invocation) (fuel : nat) (v : value) : list nat :=
  match fuel with
  | O => []
  | S fuel' =>
      concat (map (λ n,
        n :: match List.find (λ i, Nat.eqb (site i) n) l with
             | Some i =>
                 concat (map (provenance l fuel') (callee i :: actuals i))
             | None => []
             end) (objects_in v))
  end.

(** The stages a model goes through: the sites where the data it is fitted
    on was loaded and split, the sites of its [fit] and [predict] calls, and
    the sites of the metric calls that take the prediction. *)
Record stages := Stages {
  loaded : list nat;
  split : list nat;
  fitted : nat;
  predicted : nat;
  scores : list nat
}.

Definition stages_of (l : list invocation) (m : nat) : option stages :=
  match List.filter (is_method_on m "fit") l, List.filter (is_method_on m "predict") l with
  | [f], [p] =>
      let from := remove_dups (concat (map (provenance l 4) (actuals f))) in
      Some (Stages (List.filter (made_at is_dataset_source l) from)
                   (List.filter (made_at is_split l) from)
                   (site f) (site p) (map site (scored_by l (site p))))
  | _, _ => None
  end.

Definition in_order (m : nat) (s : stages) : Prop :=
  Forall (λ d, Forall (λ x, d < x)%nat (split s) ∧ (d < fitted s)%nat) (loaded s)
  ∧ Forall (λ x, x < fitted s)%nat (split s)
  ∧ (m < fitted s)%nat
  ∧ (fitted s < predicted s)%nat
  ∧ Forall (λ x, predicted s < x)%nat (scores s).

Definition in_order_b (m : nat) (s : stages) : bool :=
  forallb (λ d, forallb (λ x, Nat.ltb d x) (split s) && Nat.ltb d (fitted s)) (loaded s)
  && forallb (λ x, Nat.ltb x (fitted s)) (split s)
  && Nat.ltb m (fitted s)
  && Nat.ltb (fitted s) (predicted s)
  && forallb (λ x, Nat.ltb (predicted s) x) (scores s).

Definition is_nil {A} (l : list A) : bool :=
  match l with
  | [] => true
  | _ => false
  end.

Definition in_cells (cs : list nat) (c : option nat) : bool :=
  match c with
  | Some n => existsb (Nat.eqb n) cs
  | None => false
  end.

(** The cells that call the function [name] of [sklearn.metrics]. *)
Definition cells_scoring (name : string) (l : list invocation) : list nat :=
  remove_dups
    (map at_cell
       (List.filter (λ i, match callee i with
                          | VSymbol m n => String.eqb m "sklearn.metrics" && String.eqb n name
                          | _ => false
                          end) l)).

Definition splits_in (l : list invocation) (c : nat) : list invocation :=
  List.filter (λ i, is_split (callee i)) (in_cell c l).

(** A decimal literal as a percentage, when it is a whole one. *)
Definition as_percent (v : value) : option Z :=
  match v with
  | VDec d s =>
      if (d * 100) mod 10 ^ Z.of_nat s =? 0 then Some (d * 100 / 10 ^ Z.of_nat s) else None
  | _ => None
  end.

(** The names of the four parts of a split and the item of the split each
    is. *)
Definition split_part (name : string) : option Z :=
  if String.eqb name "X_train" then Some 0
  else if String.eqb name "X_test" then Some 1
  else if String.eqb name "y_train" then Some 2
  else if String.eqb name "y_test" then Some 3
  else None.

(** A read of one of those names finds that item of a split made in the
    reading cell. *)
Definition reads_its_part (l : list invocation) (r : read) : bool :=
  match split_part (name_read r) with
  | None => true
  | Some k =>
      match found r with
      | VItemOf (VObj s) (VInt k') =>
          Z.eqb k k' && made_at is_split l s
          && in_cells [reader r] (cell_of_site l s)
      | _ => false
      end
  end.

(** *** Reads across cells *)

(** The name read was bound by another cell. *)
Definition crosses (r : read) : bool :=
  match binder r with
  | Some b => negb (Nat.eqb b (reader r))
  | None => false
  end.

(** The objects of the value read that a callee satisfying [p] made in
    another cell than the reading one. *)
Definition foreign_objects (p : value → bool) (l : list invocation) (r : read) : list nat :=
  List.filter (λ n, if made_at p l n
                    then negb (in_cells [reader r] (cell_of_site l n))
                    else false)
    (objects_in (found r)).

Definition is_entity (f : value) : bool := is_dataset_source f || is_estimator_class f.

Definition is_model (f : value) : bool :=
  is_estimator_class f || is_transformer_class f || is_split f.

(** The cells that read the name [id] as bound by cell [b]. *)
Definition readers_of (rs : list read) (b : nat) (id : string) : list nat :=
  remove_dups
    (map reader
       (List.filter (λ r, crosses r && in_cells [b] (binder r)
                          && String.eqb (name_read r) id) rs)).

(** The names read across cells, by binding cell. *)
Definition crossing_names (rs : list read) (b : nat) : list string :=
  dedup_strings
    (map name_read (List.filter (λ r, crosses r && in_cells [b] (binder r)) rs)).

(** The notebook with cell [k] skipped. *)
Definition without (k : nat) (nb : list cell) : list cell := <[k := Markdown ""]> nb.

(** *** What is called *)

(** A callee by name: an imported symbol by its module and name, an
    attribute by what it is an attribute of, an object by the call that
    made it, in angle brackets. *)
Fixpoint describe (l : list invocation) (fuel : nat) (f : value) {struct fuel} : string :=
  (fix go (f : value) : string :=
     match f with
     | VModule m => m
     | VSymbol m n => m +:+ "." +:+ n
     | VBuiltin n => n
     | VAttrOf v a => go v +:+ "." +:+ a
     | VItemOf v _ => go v +:+ "[]"
     | VObj n =>
         match fuel with
         | O => "?"
         | S fuel' =>
             match List.find (λ i, Nat.eqb (site i) n) l with
             | Some i => "<" +:+ describe l fuel' (callee i) +:+ ">"
             | None => "?"
             end
         end
     | _ => "?"
     end) f.

(** The package a callee comes from: that of the import it hangs off,
    through the calls that made the objects on the way. *)
Fixpoint origin (l : list invocation) (fuel : nat) (f : value) {struct fuel}
    : option string :=
  (fix go (f : value) : option string :=
     match f with
     | VModule m | VSymbol m _ => Some (package m)
     | VBuiltin _ => Some "builtins"
     | VAttrOf v _ | VItemOf v _ | VElemOf v => go v
     | VObj n =>
         match fuel with
         | O => None
         | S fuel' =>
             match List.find (λ i, Nat.eqb (site i) n) l with
             | Some i => origin l fuel' (callee i)
             | None => None
             end
         end
     | _ => None
     end) f.

Definition callees (l : list invocation) : list string :=
  dedup_strings (map (λ i, describe l 4 (callee i)) l).

(** *** What an operation does outside the kernel *)

(** What an operation does outside the memory of the kernel, as Python,
    IPython and the libraries document it. *)
Inductive effect :=
  | Prints            (* text on the output of the cell *)
  | Draws             (* on an inline figure *)
  | InMemory          (* nothing outside the kernel *)
  | ReadsPackageData  (* opens, to read it, a data file shipped inside the
                         installed library *)
  | LoadsCode         (* opens, to read and run them, the files of an installed
                         module; Python may write their bytecode beside them,
                         and a library that starts for the first time its
                         configuration and caches under the user's directories *)
  | OpensFile         (* opens a file the caller names *)
  | WritesFile        (* writes a file the caller names *)
  | DeletesFile       (* deletes a file the caller names *)
  | Network.

Definition in_memory : list string :=
  ["len";
   "pandas.DataFrame";
   "sklearn.linear_model.LinearRegression"; "sklearn.linear_model.Perceptron";
   "sklearn.neighbors.KNeighborsRegressor"; "sklearn.tree.DecisionTreeRegressor";
   "sklearn.ensemble.RandomForestRegressor"; "sklearn.ensemble.AdaBoostRegressor";
   "sklearn.svm.SVR"; "sklearn.linear_model.Ridge"; "sklearn.linear_model.Lasso";
   "sklearn.linear_model.LogisticRegression"; "sklearn.lda.LDA";
   "sklearn.naive_bayes.GaussianNB"; "sklearn.neighbors.KNeighborsClassifier";
   "sklearn.tree.DecisionTreeClassifier"; "sklearn.svm.SVC";
   "sklearn.ensemble.RandomForestClassifier";
   "sklearn.cluster.MiniBatchKMeans"; "sklearn.cluster.AffinityPropagation";
   "sklearn.preprocessing.StandardScaler";
   "sklearn.metrics.mean_squared_error"; "sklearn.metrics.r2_score";
   "sklearn.metrics.classification_report";
   "sklearn.cross_validation.train_test_split";
   "sklearn.datasets.make_circles"; "sklearn.datasets.make_moons";
   "sklearn.datasets.make_blobs";
   "numpy.array"; "numpy.hstack"; "numpy.random.rand";
   "warnings.filterwarnings"].

Definition in_memory_methods : list string :=
  ["fit"; "predict"; "fit_transform"; "tolist"].

Definition draws : list string :=
  ["matplotlib.pyplot.figure"; "matplotlib.pyplot.imshow"; "matplotlib.pyplot.show";
   "matplotlib.pyplot.subplots"; "matplotlib.pyplot.subplot";
   "matplotlib.pyplot.scatter"; "matplotlib.pyplot.xticks"; "matplotlib.pyplot.yticks";
   "matplotlib.pyplot.xlabel"; "matplotlib.pyplot.ylabel";
   "pandas.tools.plotting.scatter_matrix"; "pandas.tools.plotting.radviz"].

Definition reads_package_data : list string :=
  ["sklearn.datasets.load_boston"; "sklearn.datasets.load_iris";
   "sklearn.datasets.load_diabetes"; "sklearn.datasets.load_digits";
   "sklearn.datasets.load_linnerud"].

Definition touches_files : list (string * effect) :=
  [("open", OpensFile);
   ("matplotlib.pyplot.savefig", WritesFile);
   ("numpy.save", WritesFile); ("numpy.savetxt", WritesFile);
   ("numpy.load", OpensFile); ("numpy.loadtxt", OpensFile);
   ("pandas.read_csv", OpensFile);
   ("os.remove", DeletesFile); ("os.unlink", DeletesFile); ("shutil.rmtree", DeletesFile);
   ("sklearn.datasets.fetch_mldata", Network);
   ("sklearn.datasets.fetch_20newsgroups", Network);
   ("sklearn.datasets.fetch_olivetti_faces", Network);
   ("sklearn.datasets.fetch_california_housing", Network);
   ("urllib.request.urlopen", Network)].

Definition file_methods : list (string * effect) :=
  [("to_csv", WritesFile); ("to_pickle", WritesFile); ("to_excel", WritesFile);
   ("savefig", WritesFile); ("tofile", WritesFile); ("dump", WritesFile);
   ("write", WritesFile); ("close", OpensFile); ("read", OpensFile)].

(** The name of a method called on an object or on an item of one. *)
Definition method_of (f : value) : option string :=
  match f with
  | VAttrOf (VObj _) a | VAttrOf (VItemOf _ _) a => Some a
  | _ => None
  end.

Definition assoc (k : string) (t : list (string * effect)) : option effect :=
  snd <$> List.find (λ kv, String.eqb (fst kv) k) t.

(** The effect of calling [f], when the tables know it. *)
Definition effect_of (l : list invocation) (f : value) : option effect :=
  let d := describe l 4 f in
  match method_of f with
  | Some a =>
      if bool_decide (a ∈ in_memory_methods) then Some InMemory
      else assoc a file_methods
  | None =>
      if String.eqb d "print" then Some Prints
      else if bool_decide (d ∈ draws) then Some Draws
      else if bool_decide (d ∈ in_memory) then Some InMemory
      else if bool_decide (d ∈ reads_package_data) then Some ReadsPackageData
      else assoc d touches_files
  end.

(** The packages whose import is known to do nothing but load their code:
    three modules of the standard library and the four libraries. *)
Definition known_packages : list string :=
  ["time"; "random"; "warnings"; "numpy"; "matplotlib"; "pandas"; "sklearn"].

(** The effect of an operation of the log, of whatever kind, when it is
    known.  [%matplotlib inline] imports matplotlib and selects its inline
    backend; an import loads the code of the module; a call does what the
    tables say; reading or storing an attribute or an item, an operator, an
    unpacking and an iteration work on objects that are in memory. *)
Definition footprint (l : list invocation) (e : event) : option effect :=
  match e with
  | EvMagic line => if String.eqb line "matplotlib inline" then Some LoadsCode else None
  | EvImport m _ => if bool_decide (package m ∈ known_packages) then Some LoadsCode else None
  | EvCall f _ _ => effect_of l f
  | EvGetAttr _ _ | EvGetItem _ _ | EvSetAttr _ _ _ | EvSetItem _ _ _
  | EvBinOp _ _ _ | EvNotEq _ _ | EvUnpack _ _ | EvIter _ => Some InMemory
  end.

(** The effect opens, writes or deletes a file. *)
Definition touches_a_file (e : effect) : bool :=
  match e with
  | ReadsPackageData | LoadsCode | OpensFile | WritesFile | DeletesFile => true
  | Prints | Draws | InMemory | Network => false
  end.

(** The effect acts on a file the caller names, or on the network. *)
Definition persists (e : effect) : bool :=
  match e with
  | OpensFile | WritesFile | DeletesFile | Network => true
  | _ => false
  end.

(** The operations of a log that open, write or delete a file, each with
    its position and its effect; an operation the tables do not know
    counts. *)
Definition files_touched (l : list invocation) (tr : list (nat * event))
    : list (nat * (nat * event) * option effect) :=
  List.filter (λ x, match x.2 with
                    | Some e => touches_a_file e
                    | None => true
                    end)
    (imap (λ n ce, (n, ce, footprint l ce.2)) tr).

(** The operation does nothing outside the kernel but print, draw, read
    data shipped with a library or load the code of a module; if it touches
    a file, it is the magic, an import, or a loader of cell 2 called with no
    argument, so that the file is the library's choice. *)
Definition harmless (l : list invocation) (ce : nat * event) : bool :=
  match footprint l ce.2 with
  | Some e =>
      negb (persists e)
      && (if touches_a_file e then
            match ce.2 with
            | EvMagic _ | EvImport _ _ => true
            | EvCall f [] [] =>
                Nat.eqb ce.1 2 && bool_decide (describe l 4 f ∈ reads_package_data)
            | _ => false
            end
          else true)
  | None => false
  end.

(** The functions that return [None]. *)
Definition returns_nothing : list string :=
  ["print"; "matplotlib.pyplot.show"; "warnings.filterwarnings"].

(** What the cells show besides what they print and draw: Jupyter shows the
    value of a cell that ends in an expression, unless the value is [None].
    For each cell that ends in a call, the function called, when it is not
    one that returns [None]; a cell that ends in another expression, or
    whose last operation is not the call, counts as showing something. *)
Definition values_shown (l : list invocation) (nb : list cell) (tr : list (nat * event))
    : list (nat * string) :=
  omap id
    (imap (λ c cl,
       match last (source_of cl) with
       | Some (SExpr (ECall _ _ _)) =>
           match last (List.filter (λ ce, Nat.eqb ce.1 c) tr) with
           | Some (_, EvCall f _ _) =>
               if bool_decide (describe l 4 f ∈ returns_nothing) then None
               else Some (c, describe l 4 f)
           | _ => Some (c, "?")
           end
       | Some (SExpr _) => Some (c, "?")
       | _ => None
       end) nb).

(** C6 as the specification words it: no operation of the run opens, writes
    or deletes a file or reaches the network, and the cells show nothing but
    what they print and draw. *)
Definition no_persisted_state
    (l : list invocation) (nb : list cell) (tr : list (nat * event)) : Prop :=
  (∀ ce e, ce ∈ tr → footprint l ce.2 = Some e →
           touches_a_file e = false ∧ e ≠ Network)
  ∧ values_shown l nb tr = [].

Definition imported_modules (nb : list cell) : list string :=
  dedup_strings (concat (map imports_of nb)).

Definition magics (nb : list cell) : list string :=
  concat (map (λ c, omap (λ s, match s with SMagic m => Some m | _ => None end)
                      (stmts_of c)) nb).

Definition builtins_used (rs : list read) : list string :=
  dedup_strings
    (map name_read (List.filter (λ r, match binder r with None => true | _ => false end) rs)).

(** *** How a call runs *)






(** What takes a value that is handed over: a positional parameter, a
    keyword parameter, or the attribute or item of a store. *)
Inductive parameter :=
  | Positional (n : nat)
  | Keyword (k : string)
  | StoredAttr (attr : string)
  | StoredItem.

(** The values an operation hands over, each with what takes it. *)
Definition handed_over (e : event) : list (parameter * value) :=
  match e with
  | EvCall _ a k => imap (λ n v, (Positional n, v)) a ++ map (λ kv, (Keyword kv.1, kv.2)) k
  | EvSetAttr _ attr x => [(StoredAttr attr, x)]
  | EvSetItem _ _ x => [(StoredItem, x)]
  | _ => []
  end.

(** The attributes that hold data: those of the datasets, of the arrays and
    of the fitted clustering models. *)
Definition data_attributes : list string :=
  ["data"; "target"; "feature_names"; "target_names"; "images"; "shape";
   "cluster_centers_"].

(** The parts of a value that are not plain data.  Literals are data, and
    so is what a call, an operator or a comprehension produced, and an
    attribute of the table or an item of data.  A module, an imported
    function or class, a builtin, and any other attribute (a method, a
    function of a module, an object found in a module) are not. *)
Fixpoint not_data (v : value) : list value :=
  match v with
  | VNone | VBool _ | VInt _ | VDec _ _ | VStr _ | VObj _ => []
  | VTuple vs | VList vs => concat (map not_data vs)
  | VDict kvs => concat (map (λ '(k, x), not_data k ++ not_data x) kvs)
  | VSlice lo hi => from_option not_data [] lo ++ from_option not_data [] hi
  | VModule _ | VSymbol _ _ | VBuiltin _ => [v]
  | VAttrOf o a => if bool_decide (a ∈ data_attributes) then not_data o else [v]
  | VItemOf o k => not_data o ++ not_data k
  | VElemOf o => not_data o
  end.

(** What an operation hands over that is not plain data: the cell, the
    callee, the parameter and the value. *)
Definition hands_over (l : list invocation) (ce : nat * event)
    : list (nat * string * parameter * value) :=
  match ce.2 with
  | EvCall f _ _ =>
      concat (map (λ pv, map (λ v, (ce.1, describe l 4 f, pv.1, v)) (not_data pv.2))
                (handed_over ce.2))
  | _ =>
      concat (map (λ pv, map (λ v, (ce.1, "", pv.1, v)) (not_data pv.2))
                (handed_over ce.2))
  end.

(** The colour maps of [matplotlib.pyplot.cm]: objects that turn numbers
    into colours. *)
Definition is_colour_map (v : value) : bool :=
  match v with
  | VAttrOf (VAttrOf (VModule m) c) _ =>
      String.eqb m "matplotlib.pyplot" && String.eqb c "cm"
  | _ => false
  end.

(** The operation hands over nothing but data, or a colour map to the
    parameter [cmap] of [imshow]. *)
Definition hands_data_only (l : list invocation) (ce : nat * event) : bool :=
  forallb (λ x, match x with
                | (_, f, Keyword k, v) =>
                    String.eqb f "matplotlib.pyplot.imshow" && String.eqb k "cmap"
                    && is_colour_map v
                | _ => false
                end) (hands_over l ce).


(** The calls that fit a model, predict, compute a metric or draw. *)
Definition delegated (i : invocation) : bool :=
  is_method "fit" i || is_method "predict" i || is_method "fit_transform" i
  || is_metric (callee i) || is_plot (callee i).

Definition from_library (l : list invocation) (i : invocation) : bool :=
  match origin l 4 (callee i) with
  | Some pkg =>
      if delegated i
      then bool_decide (pkg ∈ ["sklearn"; "pandas"; "matplotlib"; "numpy"])
      else bool_decide (pkg ∈ ["sklearn"; "pandas"; "matplotlib"; "numpy";
                               "warnings"; "builtins"])
  | None => false
  end.

(** *** One-dimensional arrays, as numpy documents them *)

(** [np.array] of a list and [np.hstack] of a list of one-dimensional
    arrays. *)
Definition np_array (items : list value) : list value := items.
Definition np_hstack (arrays : list (list value)) : list value := concat arrays.

(** [a[i]] for an integer [i]: counted from the end when negative, an
    [IndexError] when out of range. *)
Definition np_item (a : list value) (i : Z) : option value :=
  let n := Z.of_nat (length a) in
  if (0 <=? i) && (i <? n) then a !! Z.to_nat i
  else if (- n <=? i) && (i <? 0) then a !! Z.to_nat (n + i)
  else None.

(** [a[idx]] for an array of integers [idx]. *)
Definition np_take (a : list value) (idx : list Z) : option (list value) :=
  mapM (np_item a) idx.

Definition is_module_attr (m a : string) (f : value) : bool :=
  match f with
  | VAttrOf (VModule p) x => String.eqb p m && String.eqb x a
  | _ => false
  end.

(** The array an object is, when [np.array] and [np.hstack] built it from
    lists the notebook holds in full. *)
Fixpoint array_of (tr : list (nat * event)) (fuel : nat) (v : value)
    : option (list value) :=
  match fuel, v with
  | S fuel', VObj n =>
      match tr !! n with
      | Some (_, EvCall f [VList xs] []) =>
          if is_module_attr "numpy" "array" f then Some (np_array xs)
          else if is_module_attr "numpy" "hstack" f
               then np_hstack <$> mapM (array_of tr fuel') xs
               else None
      | _ => None
      end
  | _, _ => None
  end.

(** What a cell finds under a name the first time it reads it. *)
Definition name_in (rs : list read) (c : nat) (id : string) : option value :=
  found <$> List.find (λ r, Nat.eqb (reader r) c && String.eqb (name_read r) id) rs.

(** The keys the object made at site [n] is subscripted with in cell [c]. *)
Definition subscripts (tr : list (nat * event)) (c n : nat) : list value :=
  omap (λ ce, match ce with
              | (c', EvGetItem (VObj n') k) =>
                  if Nat.eqb c' c && Nat.eqb n' n then Some k else None
              | _ => None
              end) tr.

Definition constructions (module name : string) (l : list invocation) : list invocation :=
  List.filter (λ i, match callee i with
                    | VSymbol m n => String.eqb m module && String.eqb n name
                    | _ => false
                    end) l.

(** *** The current axes, as pyplot documents them *)

Inductive axes :=
  | WholeFigure (fig : nat)                      (* the one axes of [plt.subplots()] *)
  | Subplot (fig : nat) (rows cols index : Z).   (* [plt.subplot(rows, cols, index)] *)

(** pyplot's state: the current figure, named by the site of the call that
    opened it, and the current axes. *)
Record pyplot := Pyplot {
  figure : option nat;
  current : option axes
}.

Definition pyplot_draws : list string :=
  ["scatter"; "imshow"; "xticks"; "yticks"; "xlabel"; "ylabel"].

Definition pyplot_step (st : pyplot) (i : invocation) : pyplot :=
  match callee i with
  | VAttrOf (VModule m) a =>
      if negb (String.eqb m "matplotlib.pyplot") then st
      else if String.eqb a "subplots" then Pyplot (Some (site i)) (Some (WholeFigure (site i)))
      else if String.eqb a "figure" then Pyplot (Some (site i)) None
      else if String.eqb a "show" then Pyplot None None
      else if String.eqb a "subplot" then
        let fig := default (site i) (figure st) in
        match actuals i with
        | [VInt r; VInt c; VInt k] => Pyplot (Some fig) (Some (Subplot fig r c k))
        | _ => st
        end
      else if bool_decide (a ∈ pyplot_draws) then
        match current st with
        | Some _ => st
        | None =>
            let fig := default (site i) (figure st) in
            Pyplot (Some fig) (Some (WholeFigure fig))
        end
      else st
  | _ => st
  end.

(** Every call with pyplot's current axes right after it. *)
Fixpoint with_axes (st : pyplot) (l : list invocation) : list (invocation * option axes) :=
  match l with
  | [] => []
  | i :: l' => let st' := pyplot_step st i in (i, current st') :: with_axes st' l'
  end.

(** What a pyplot call of a clustering cell does: draw the centers of a
    model, draw the points of a dataset, or select a subplot. *)
Inductive drawing :=
  | Centers (model : nat)
  | Points (data : nat)
  | Select (index : Z).

Definition drawing_of (i : invocation) : option drawing :=
  if is_module_attr "matplotlib.pyplot" "scatter" (callee i) then
    match actuals i with
    | VItemOf (VAttrOf (VObj m) a) _ :: _ =>
        if String.eqb a "cluster_centers_" then Some (Centers m) else None
    | VItemOf (VObj x) _ :: _ => Some (Points x)
    | _ => None
    end
  else if is_module_attr "matplotlib.pyplot" "subplot" (callee i) then
    match actuals i with
    | [_; _; VInt k] => Some (Select k)
    | _ => None
    end
  else None.

(** The drawings of cell [c], in order, each with the axes that are current
    right after it. *)
Definition drawings (l : list invocation) (c : nat) : list (drawing * option axes) :=
  omap (λ ia, if Nat.eqb (at_cell ia.1) c
              then (λ d, (d, ia.2)) <$> drawing_of ia.1
              else None)
    (with_axes (Pyplot None None) l).

(** The data the model made at site [m] was fitted on. *)
Definition fitted_on (l : list invocation) (m : nat) : option nat :=
  match List.find (is_method_on m "fit") l with
  | Some i => match actuals i with
              | [VObj x] => Some x
              | _ => None
              end
  | None => None
  end.

Definition axes_of (ds : list (drawing * option axes)) (p : drawing → bool) : option axes :=
  List.find (λ d, p d.1) ds ≫= snd.

Definition is_centers (m : nat) (d : drawing) : bool :=
  match d with
  | Centers m' => Nat.eqb m m'
  | _ => false
  end.

Definition is_points (x : nat) (d : drawing) : bool :=
  match d with
  | Points x' => Nat.eqb x x'
  | _ => false
  end.

(** C2 as the specification words it: every demonstration cell reads a
    dataset, instantiates exactly one estimator, fits it, predicts with it
    and prints or plots a metric. *)
Definition one_estimator_each
    (l : list invocation) (rs : list read) (nb : list cell) : Prop :=
  ∀ c, c ∈ demonstration_cells l nb →
    datasets_read l rs c ≠ []
    ∧ estimators (profile_of l c) = 1%nat
    ∧ (1 ≤ fits (profile_of l c))%nat
    ∧ (1 ≤ predicts (profile_of l c))%nat
    ∧ (1 ≤ metrics (profile_of l c))%nat
    ∧ (1 ≤ prints (profile_of l c) + plots (profile_of l c))%nat.

(** C3 as the specification words it: every model is fitted before it
    predicts, and a metric is computed from that prediction. *)
Definition every_model_scored (l : list invocation) : Prop :=
  ∀ m, m ∈ model_sites l →
    ∃ f p, f ∈ sites_of (is_method_on m "fit") l
           ∧ p ∈ sites_of (is_method_on m "predict") l
           ∧ (f < p)%nat
           ∧ scored_by l p ≠ [].

(** C5 as the specification words it: every dataset container and every
    estimator object is read only in the cell that made it. *)
Definition used_where_made (l : list invocation) (rs : list read) : Prop :=
  ∀ r, r ∈ rs → foreign_objects is_entity l r = [].

(** ** The nominal run *)

Definition nominal : outcome unit * state := run_all quiet notebook.

(** The operations, the name resolutions and the calls of the nominal run. *)
Definition T : list (nat * event) := Eval vm_compute in trace (snd nominal).
Definition R : list read := Eval vm_compute in reads (snd nominal).
Definition I : list invocation := Eval vm_compute in invocations T.

(** ** Further surveys of the notebook *)

(** *** What a cell needs *)

(** The notebook with only the cells [ks] kept. *)
Definition only (ks : list nat) (nb : list cell) : list cell :=
  imap (λ i c, if bool_decide (i ∈ ks) then c else Markdown "") nb.

(** The cells that bound a name cell [k] reads. *)
Definition reads_from (rs : list read) (k : nat) : list nat :=
  remove_dups
    (omap (λ r, if Nat.eqb (reader r) k && crosses r then binder r else None) rs).

(** The cells cell [k] needs: those it reads from, and those they need. *)
Fixpoint needs (rs : list read) (fuel : nat) (k : nat) : list nat :=
  match fuel with
  | O => []
  | S fuel' =>
      remove_dups (concat (map (needs rs fuel') (reads_from rs k)) ++ reads_from rs k)
  end.

Definition is_code (c : cell) : bool :=
  match c with
  | Code _ => true
  | Markdown _ => false
  end.

Definition completes (r : outcome unit * state) : bool :=
  match r.1 with
  | Done _ => true
  | Raised _ => false
  end.

Definition name_error (r : outcome unit * state) : bool :=
  match r.1 with
  | Raised x => String.eqb x "NameError"
  | Done _ => false
  end.

(** Cell [k] runs to its end after the cells it needs, and after no proper
    part of them. *)
Definition self_contained (rs : list read) (nb : list cell) (k : nat) : bool :=
  let ds := needs rs 3 k in
  completes (run_all quiet (only (ds ++ [k]) nb))
  && forallb (λ d, name_error
                     (run_all quiet (only (List.filter (λ x, negb (Nat.eqb x d)) ds ++ [k]) nb)))
       ds.

(** *** Stores, seeds and unused data *)

Definition is_store (ce : nat * event) : bool :=
  match ce.2 with
  | EvSetAttr _ _ _ | EvSetItem _ _ _ => true
  | _ => false
  end.

(** The stores of a log, each with its position. *)
Definition stores (tr : list (nat * event)) : list (nat * (nat * event)) :=
  List.filter (λ ie, is_store ie.2) (imap pair tr).

(** The calls handed the value [v] as an argument. *)
Definition handed (l : list invocation) (v : value) : list invocation :=
  List.filter (λ i, existsb (λ a, match a, v with
                                  | VObj n, VObj m => Nat.eqb n m
                                  | _, _ => false
                                  end) (actuals i)) l.

(** A call into [numpy.random]. *)
Definition is_numpy_random (i : invocation) : bool :=
  match callee i with
  | VAttrOf (VAttrOf (VModule m) a) _ => String.eqb m "numpy" && String.eqb a "random"
  | _ => false
  end.

(** The keyword arguments of a call that fix a random seed. *)
Definition seeds (i : invocation) : list (string * value) :=
  List.filter (λ kv, bool_decide (kv.1 ∈ ["random_state"; "seed"])) (keywords i).

(** A call of a function named [seed]. *)
Definition is_seeding (i : invocation) : bool :=
  match callee i with
  | VAttrOf _ a => String.eqb a "seed"
  | VSymbol _ n => String.eqb n "seed"
  | _ => false
  end.

(** The calls made on the object made at site [s]. *)
Definition calls_on_object (l : list invocation) (s : nat) : list invocation :=
  List.filter (λ i, match callee i with
                    | VAttrOf (VObj n) _ => Nat.eqb n s
                    | _ => false
                    end) l.

(** *** Decorations of the plots *)

Definition pyplot_decorations : list string := ["xticks"; "yticks"; "xlabel"; "ylabel"].

(** The ticks and labels set in cell [c], each with the axes it lands on. *)
Definition decorations (l : list invocation) (c : nat) : list (string * option axes) :=
  omap (λ ia, match callee ia.1 with
              | VAttrOf (VModule m) a =>
                  if Nat.eqb (at_cell ia.1) c && String.eqb m "matplotlib.pyplot"
                     && bool_decide (a ∈ pyplot_decorations)
                  then Some (a, ia.2)
                  else None
              | _ => None
              end)
    (with_axes (Pyplot None None) l).

Definition on_subplot (a : option axes) : bool :=
  match a with
  | Some (Subplot _ 1 4 k) => (1 <=? k) && (k <=? 4)
  | _ => false
  end.

(** A [plt.subplot] call asks for one of the four places of a row. *)
Definition subplot_in_range (i : invocation) : bool :=
  if is_module_attr "matplotlib.pyplot" "subplot" (callee i) then
    match actuals i with
    | [VInt 1; VInt 4; VInt k] => (1 <=? k) && (k <=? 4)
    | _ => false
    end
  else true.

(** *** Names bound and never read *)

Definition target_names (t : target) : list string :=
  match t with
  | TName id => [id]
  | TTuple ids => ids
  | TAttribute _ _ | TSubscript _ _ => []
  end.

(** The names a statement binds itself (the statements inside it apart). *)
Definition binds (s : stmt) : list string :=
  match s with
  | SImport module asname => [default module asname]
  | SImportFrom _ name asname => [default name asname]
  | SAssign t _ => target_names t
  | SFor t _ _ => target_names t
  | _ => []
  end.

(** The names the code cells bind, each with the cell, in source order. *)
Definition bindings (nb : list cell) : list (nat * string) :=
  concat (imap (λ i c, map (pair i) (concat (map binds (stmts_of c)))) nb).

Definition readers_of_name (rs : list read) (id : string) : list nat :=
  remove_dups (map reader (List.filter (λ r, String.eqb (name_read r) id) rs)).

(** The names bound by some cell that the reads [rs] never ask for. *)
Definition never_read (nb : list cell) (rs : list read) : list string :=
  List.filter (λ id, is_nil (readers_of_name rs id)) (remove_dups (map snd (bindings nb))).

(** *** The warning filter *)

Definition is_filterwarnings (i : invocation) : bool :=
  is_module_attr "warnings" "filterwarnings" (callee i).

(** Some [warnings.filterwarnings] call of the log [l] comes before the
    call [i]. *)
Definition filtered (l : list invocation) (i : invocation) : bool :=
  existsb (λ j, is_filterwarnings j && (site j <? site i)%nat) l.

(** The cells whose calls of the method [name] satisfy [p]. *)
Definition cells_calling (name : string) (p : invocation → bool) (l : list invocation)
    : list nat :=
  remove_dups (map at_cell (List.filter (λ i, is_method name i && p i) l)).

(** *** The colours of the iris plots *)

(** [d[k]] for a dict written as a literal and an integer [k]: the value of
    the last item whose key is [k], a [KeyError] when there is none. *)
Definition dict_item (d : value) (k : Z) : option value :=
  match d with
  | VDict kvs =>
      snd <$> List.find (λ kv, match kv.1 with
                               | VInt k' => Z.eqb k' k
                               | _ => false
                               end) (rev kvs)
  | _ => None
  end.

(** [[d[t] for t in labels]] *)
Definition dict_items (d : value) (labels : list Z) : option (list value) :=
  mapM (dict_item d) labels.

(** The value of the keyword [k] of the call of [module.name] in cell [c]. *)
Definition keyword_in (l : list invocation) (c : nat) (module name k : string)
    : option value :=
  match List.filter (λ i, Nat.eqb (at_cell i) c) (constructions module name l) with
  | [i] => snd <$> List.find (λ kv, String.eqb kv.1 k) (keywords i)
  | _ => None
  end.

(** *** The palette of the clustering cells *)

Definition palette : list value :=
  np_hstack (replicate 20 (np_array (chars "bgrcmykbgrcmykbgrcmykbgrcmyk"))).

(** [a[:n]] for an integer [n] that is not negative. *)
Definition np_upto (a : list value) (n : Z) : list value := take (Z.to_nat n) a.

(** *** Arities *)

(** The conversions of a [%] format: every [%] but those of a doubled one. *)
Fixpoint conversions (s : string) : nat :=
  match s with
  | String "%" (String "%" s') => conversions s'
  | String "%" s' => S (conversions s')
  | String _ s' => conversions s'
  | EmptyString => 0
  end.

(** How many values a library value unpacks to or fills a format with, where
    the library documents it: [train_test_split] returns two arrays for each
    one it is given, [plt.subplots] a figure and its axes, the generators of
    [sklearn.datasets] the samples and their labels; the [shape] of the
    [data] of a bundled dataset has two dimensions; a metric is one number. *)
Definition arity (l : list invocation) (v : value) : option nat :=
  match v with
  | VObj n =>
      match List.find (λ i, Nat.eqb (site i) n) l with
      | Some i =>
          if is_split (callee i) then Some (2 * length (actuals i))%nat
          else if is_module_attr "matplotlib.pyplot" "subplots" (callee i)
               then Some 2%nat
          else match callee i with
               | VSymbol "sklearn.datasets" g =>
                   if bool_decide (g ∈ ["make_circles"; "make_moons"; "make_blobs"])
                   then Some 2%nat else None
               | VSymbol "sklearn.metrics" m =>
                   if bool_decide (m ∈ ["mean_squared_error"; "r2_score"])
                   then Some 1%nat else None
               | _ => None
               end
      | None => None
      end
  | VAttrOf (VAttrOf (VObj n) "data") "shape" =>
      match List.find (λ i, Nat.eqb (site i) n) l with
      | Some i =>
          match callee i with
          | VSymbol "sklearn.datasets" g =>
              if bool_decide (g ∈ ["load_boston"; "load_iris"; "load_diabetes";
                                    "load_digits"; "load_linnerud"])
              then Some 2%nat else None
          | _ => None
          end
      | None => None
      end
  | _ => None
  end.

(** An unpacking asks for as many values as there are, a format holds as
    many conversions as it is given values; other events ask nothing. *)
Definition arity_matches (l : list invocation) (e : event) : bool :=
  match e with
  | EvUnpack v n => bool_decide (arity l v = Some n)
  | EvBinOp Mod (VStr f) v => bool_decide (arity l v = Some (conversions f))
  | EvBinOp _ _ _ => false
  | _ => true
  end.

(** *** A kernel that already holds names *)





(** ** Runs under a failing library

    The library answers the operation at position [n] of the log with
    [lib n].  A program without [try] has no way to act on an exception, so
    its run under any library is the nominal run cut at the first operation
    the library fails. *)

Section Faults.
Local Open Scope nat_scope.
Variable lib : nat → option string.

Lemma first_fault_add k a b :
  first_fault lib k (a + b) =
    match first_fault lib k a with
    | Some r => Some r
    | None => first_fault lib (k + a) b
    end.
Proof.
  revert k. induction a as [|a IH]; intros k; simpl.
  - by rewrite Nat.add_0_r.
  - destruct (lib k); [done|]. rewrite IH. by rewrite Nat.add_succ_r.
Qed.

Lemma first_fault_Some k len n x :
  first_fault lib k len = Some (n, x) → k ≤ n < k + len ∧ lib n = Some x.
Proof.
  revert k. induction len as [|len IH]; intros k; simpl; [done|].
  destruct (lib k) eqn:Hk.
  - intros [= <- <-]. split; [lia|done].
  - intros H. apply IH in H. split; [lia|]. apply H.
Qed.

Lemma first_fault_None k len n :
  first_fault lib k len = None → k ≤ n < k + len → lib n = None.
Proof.
  revert k. induction len as [|len IH]; intros k; simpl; [lia|].
  destruct (lib k) eqn:Hk; [done|].
  intros H Hn. destruct (decide (n = k)) as [->|]; [done|].
  apply (IH (S k)); [done|lia].
Qed.

Lemma follows_silent {A} (m : M A) :
  (∀ st, trace (m st).2 = trace st ∧ reads st `prefix_of` reads (m st).2) →
  follows lib m m.
Proof.
  intros H st. exists []. destruct (H st) as [Ht Hr].
  rewrite app_nil_r. done.
Qed.

Lemma follows_ret {A} (a : A) : follows lib (mret a) (mret a).
Proof. by apply follows_silent. Qed.

Lemma follows_raise {A} x : follows lib (@raise A x) (raise x).
Proof. by apply follows_silent. Qed.

Lemma follows_bind_name id v : follows lib (bind_name id v) (bind_name id v).
Proof. by apply follows_silent. Qed.

Lemma follows_lookup_name id : follows lib (lookup_name id) (lookup_name id).
Proof.
  apply follows_silent. intros st. unfold lookup_name.
  destruct (get_name id (globals st)) as [[v c]|]; simpl.
  - split; [done|]. by apply prefix_app_r.
  - case_bool_decide; simpl; (split; [done|]); [by apply prefix_app_r|done].
Qed.

Lemma follows_libop e : follows lib (libop lib e) (libop quiet e).
Proof.
  intros st. exists [(running st, e)]. unfold libop, quiet; simpl.
  split; [done|]. split; [done|].
  destruct (lib (length (trace st))) eqn:Hl; [|done].
  simpl. split; [done|]. split; [|done].
  symmetry. apply take_ge. rewrite length_app. simpl. lia.
Qed.

Lemma follows_bind {A B} (m mq : M A) (f fq : A → M B) :
  follows lib m mq → (∀ a, follows lib (f a) (fq a)) → follows lib (m ≫= f) (mq ≫= fq).
Proof.
  intros Hm Hf st. destruct (Hm st) as (new1 & Ht1 & Hr1 & H1).
  unfold mbind, M_bind.
  destruct (mq st) as [[a|x0] sq] eqn:Hq; simpl in *.
  - destruct (Hf a sq) as (new2 & Ht2 & Hr2 & H2).
    exists (new1 ++ new2). rewrite Ht2, Ht1, <- (assoc_L (++)).
    split; [done|]. split; [by etrans|].
    rewrite length_app, first_fault_add.
    destruct (first_fault lib (length (trace st)) (length new1)) as [[n x]|] eqn:Hff.
    + destruct H1 as (Hx & Htr & Hrd).
      destruct (m st) as [[?|?] s']; simpl in *; [done|].
      injection Hx as ->. split; [done|]. split; [|by etrans].
      apply first_fault_Some in Hff as [Hn _].
      rewrite Htr, Ht1, (assoc_L (++)). symmetry. apply take_app_le.
      rewrite length_app. lia.
    + rewrite H1. rewrite Ht1, length_app in H2.
      destruct (first_fault lib _ (length new2)) as [[n x]|]; [|done].
      by rewrite Ht2, Ht1, <- (assoc_L (++)) in H2.
  - exists new1. split; [done|]. split; [done|].
    destruct (first_fault lib _ _) as [[n x]|].
    + destruct H1 as (Hx & Htr & Hrd).
      destruct (m st) as [[?|?] s']; by simplify_eq/=.
    + by rewrite H1.
Qed.

Lemma follows_with_local {A} id v (m mq : M A) :
  follows lib m mq → follows lib (with_local id v m) (with_local id v mq).
Proof.
  intros Hm st. unfold with_local.
  set (st0 := State _ (trace st) (reads st) (running st)).
  destruct (Hm st0) as (new & Ht & Hr & H). exists new.
  destruct (mq st0) as [rq sq] eqn:Hq; simpl in *.
  split; [done|]. split; [done|].
  destruct (first_fault lib _ _) as [[n x]|].
  - by destruct (m st0) as [r s'].
  - by rewrite H.
Qed.

Lemma follows_mapM {A B} (f fq : A → M B) (l : list A) :
  (∀ a, a ∈ l → follows lib (f a) (fq a)) → follows lib (mapM f l) (mapM fq l).
Proof.
  induction l as [|a l IH]; intros H; simpl.
  - apply follows_ret.
  - apply follows_bind; [apply H; left|]. intros b.
    apply follows_bind; [apply IH; intros; apply H; by right|].
    intros k. apply follows_ret.
Qed.

Lemma follows_forM_ {A} (f fq : A → M unit) (l : list A) :
  (∀ a, a ∈ l → follows lib (f a) (fq a)) → follows lib (forM_ f l) (forM_ fq l).
Proof.
  induction l as [|a l IH]; intros H; simpl.
  - apply follows_ret.
  - apply follows_bind; [apply H; left|]. intros _.
    apply IH; intros; apply H; by right.
Qed.

Lemma all_exprs (P : expr → Prop) (l : list expr) :
  list_all expr P l → ∀ e, e ∈ l → P e.
Proof.
  induction 1 as [|a Ha l _ IH]; intros b Hb; inversion Hb; subst; auto.
Qed.

Lemma all_stmts (P : stmt → Prop) (l : list stmt) :
  list_all stmt P l → ∀ s, s ∈ l → P s.
Proof.
  induction 1 as [|a Ha l _ IH]; intros b Hb; inversion Hb; subst; auto.
Qed.

Lemma all_keywords (P : expr → Prop) (l : list (string * expr)) :
  list_all (string * expr) (prod_all string (λ _, unit) expr P) l →
  ∀ k e, (k, e) ∈ l → P e.
Proof.
  induction 1 as [|ka Hka l _ IH]; intros k b Hb; inversion Hb; subst; eauto.
  by inversion Hka.
Qed.

Lemma all_items (P : expr → Prop) (l : list (expr * expr)) :
  list_all (expr * expr) (prod_all expr P expr P) l →
  ∀ k e, (k, e) ∈ l → P k ∧ P e.
Proof.
  induction 1 as [|ka Hka l _ IH]; intros k b Hb; inversion Hb; subst; eauto.
  by inversion Hka.
Qed.

Ltac follow :=
  repeat first
    [ apply follows_ret | apply follows_raise | apply follows_libop
    | apply follows_lookup_name | apply follows_bind_name
    | assumption
    | apply follows_bind; [|intros ?]
    | apply follows_with_local ].

Lemma follows_call f args kw : follows lib (call lib f args kw) (call quiet f args kw).
Proof. unfold call. destruct (builtin_call f args kw); follow. Qed.

Lemma follows_binary op l r : follows lib (binary lib op l r) (binary quiet op l r).
Proof. unfold binary. destruct (concrete_binop op l r); follow. Qed.

Lemma follows_not_equal l r : follows lib (not_equal lib l r) (not_equal quiet l r).
Proof. unfold not_equal. destruct (concrete_not_equal l r); follow. Qed.

Lemma follows_bind_names ids vs : follows lib (bind_names ids vs) (bind_names ids vs).
Proof.
  revert vs. induction ids as [|id ids IH]; intros [|v vs]; simpl; follow.
  apply IH.
Qed.

Lemma follows_eval e : follows lib (eval lib e) (eval quiet e).
Proof.
  induction e as
    [id|e IH attr|func IHf args IHa kws IHk|s|n|d s| |elts IH|elts IH|items IH
    |elt IHe x iter IHi|l IHl op r IHr|l IHl r IHr|e IHe slice IHs
    |lower IHl upper IHu|c]; simpl; follow.
  - apply follows_mapM. by apply all_exprs.
  - apply follows_mapM. intros [k e'] Hk. follow.
    apply (all_keywords _ _ IHk k e' Hk).
  - apply follows_call.
  - apply follows_mapM. by apply all_exprs.
  - apply follows_mapM. by apply all_exprs.
  - apply follows_mapM. intros [k e'] Hk.
    destruct (all_items _ _ IH k e' Hk). follow.
  - match goal with a : value |- _ => destruct a end; follow;
      apply follows_mapM; intros; follow.
  - apply follows_binary.
  - apply follows_not_equal.
  - destruct IHl; follow.
  - destruct IHu; follow.
Qed.

Lemma follows_assign t v : follows lib (assign lib t v) (assign quiet t v).
Proof.
  destruct t as [id|ids|e attr|e key]; simpl; follow;
    try apply follows_eval.
  destruct v; follow; apply follows_bind_names.
Qed.

Lemma forallb_elem {A} (f : A → bool) (l : list A) :
  forallb f l = true → ∀ a, a ∈ l → f a = true.
Proof.
  rewrite forallb_forall. intros H a Ha. apply H. by apply list_elem_of_In.
Qed.

Lemma follows_exec s : try_free s = true → follows lib (exec lib s) (exec quiet s).
Proof.
  induction s as
    [line|module asname|module name asname|t value|e|t iter body IH
    |test body IHb orelse IHo|body IHb handler IHh|c]; simpl; intros Hs;
    try done; follow; try apply follows_eval; try apply follows_assign.
  - match goal with a : value |- _ => destruct a end; follow;
      apply follows_forM_; intros item _; follow; try apply follows_assign;
      apply follows_forM_; intros s Hin;
      (apply (all_stmts _ _ IH); [done|]);
      by apply (forallb_elem _ _ Hs).
  - apply andb_prop in Hs as [Hb Ho].
    match goal with a : value |- _ => destruct a as [|[|]| | | | | | | | | | | | | |] end;
      follow; apply follows_forM_; intros s Hin.
    + apply (all_stmts _ _ IHb); [done|]. by apply (forallb_elem _ _ Hb).
    + apply (all_stmts _ _ IHo); [done|]. by apply (forallb_elem _ _ Ho).
Qed.

Lemma follows_exec_block body :
  forallb try_free body = true → follows lib (exec_block lib body) (exec_block quiet body).
Proof.
  intros H. apply follows_forM_. intros s Hs. apply follows_exec.
  by apply (forallb_elem _ _ H).
Qed.

Lemma follows_run_cell i c :
  cell_try_free c = true → follows lib (run_cell lib i c) (run_cell quiet i c).
Proof.
  destruct c as [h|source]; simpl; intros H; [apply follows_ret|].
  intros st.
  destruct (follows_exec_block source H
    (State (globals st) (trace st) (reads st) i)) as (new & ? & ? & ?).
  by exists new.
Qed.

Lemma follows_run_cells cells i :
  forallb cell_try_free cells = true →
  follows lib (run_cells lib i cells) (run_cells quiet i cells).
Proof.
  revert i. induction cells as [|c cells IH]; intros i; simpl; intros H.
  - apply follows_ret.
  - apply andb_prop in H as [Hc H]. apply follows_bind.
    + by apply follows_run_cell.
    + intros _. by apply IH.
Qed.

End Faults.

(** ** The notebook under any library *)

Lemma notebook_try_free : forallb cell_try_free notebook = true.
Proof. vm_compute. reflexivity. Qed.

Lemma nominal_trace : trace (run_all quiet notebook).2 = T.
Proof. vm_compute. reflexivity. Qed.

Lemma nominal_reads : reads (run_all quiet notebook).2 = R.
Proof. vm_compute. reflexivity. Qed.

Lemma nominal_done : nominal.1 = Done tt.
Proof. vm_compute. reflexivity. Qed.

Lemma follows_fresh lib {A} (m mq : M A) :
  follows lib m mq →
  match first_fault lib 0 (length (trace (mq fresh).2)) with
  | None => m fresh = mq fresh
  | Some (n, x) =>
      (m fresh).1 = Raised x ∧
      trace (m fresh).2 = take (S n) (trace (mq fresh).2) ∧
      reads (m fresh).2 `prefix_of` reads (mq fresh).2
  end.
Proof.
  intros H. destruct (H fresh) as (new & Ht & _ & H').
  simpl in Ht, H'. by subst new.
Qed.

Lemma run_all_follows lib nb :
  forallb cell_try_free nb = true →
  match first_fault lib 0 (length (trace (run_all quiet nb).2)) with
  | None => run_all lib nb = run_all quiet nb
  | Some (n, x) =>
      (run_all lib nb).1 = Raised x ∧
      trace (run_all lib nb).2 = take (S n) (trace (run_all quiet nb).2) ∧
      reads (run_all lib nb).2 `prefix_of` reads (run_all quiet nb).2
  end.
Proof. intros H. exact (follows_fresh lib _ _ (follows_run_cells lib nb 0 H)). Qed.

(** Run All under any library is the nominal run cut at the first operation
    the library fails, and ends with the exception the library raised. *)
Lemma run_all_cut lib :
  match first_fault lib 0 (length T) with
  | None => run_all lib notebook = nominal
  | Some (n, x) =>
      (run_all lib notebook).1 = Raised x ∧
      trace (run_all lib notebook).2 = take (S n) T ∧
      reads (run_all lib notebook).2 `prefix_of` R
  end.
Proof.
  pose proof (run_all_follows lib notebook notebook_try_free) as H.
  rewrite nominal_trace, nominal_reads in H. exact H.
Qed.

Lemma run_all_trace lib : trace (run_all lib notebook).2 `prefix_of` T.
Proof.
  pose proof (run_all_cut lib) as H.
  destruct (first_fault lib 0 (length T)) as [[n x]|].
  - destruct H as (_ & -> & _). apply prefix_take.
  - rewrite H. unfold nominal. by rewrite nominal_trace.
Qed.

Lemma run_all_reads lib : reads (run_all lib notebook).2 `prefix_of` R.
Proof.
  pose proof (run_all_cut lib) as H.
  destruct (first_fault lib 0 (length T)) as [[n x]|].
  - apply H.
  - rewrite H. unfold nominal. by rewrite nominal_reads.
Qed.

Lemma imap_app_prefix {A B} (f : nat → A → B) (l k : list A) :
  imap f l `prefix_of` imap f (l ++ k).
Proof. rewrite imap_app. by apply prefix_app_r. Qed.

Lemma omap_prefix {A B} (f : A → option B) (l k : list A) :
  l `prefix_of` k → omap f l `prefix_of` omap f k.
Proof. intros [m ->]. rewrite omap_app. by apply prefix_app_r. Qed.

Lemma invocations_prefix tr tr' :
  tr `prefix_of` tr' → invocations tr `prefix_of` invocations tr'.
Proof.
  intros [m ->]. unfold invocations. apply omap_prefix, imap_app_prefix.
Qed.

(** Every call of every run is a call of the nominal run. *)
Lemma run_all_invocations lib :
  invocations (trace (run_all lib notebook).2) `prefix_of` I.
Proof.
  change I with (invocations T). apply invocations_prefix, run_all_trace.
Qed.

Lemma prefix_elem_of {A} (l k : list A) x : l `prefix_of` k → x ∈ l → x ∈ k.
Proof. intros [m ->] ?. apply elem_of_app. by left. Qed.

Lemma elem_of_filter_true {A} (p : A → bool) (l : list A) x :
  x ∈ l → p x = true → x ∈ List.filter p l.
Proof. rewrite !list_elem_of_In, filter_In. done. Qed.

Lemma elem_of_filtered {A} (p : A → bool) (l : list A) x :
  x ∈ List.filter p l → x ∈ l.
Proof. rewrite !list_elem_of_In, filter_In. by intros [? _]. Qed.

Lemma invocation_at_site k ce i : invocation_at k ce = Some i → site i = k.
Proof.
  unfold invocation_at. destruct ce as [c e]. simpl.
  destruct e; intros [= <-]; reflexivity.
Qed.

(** A call is in the calls of a log exactly when the log holds it at its
    site. *)
Lemma elem_of_invocations tr i :
  i ∈ invocations tr ↔ ∃ ce, tr !! site i = Some ce ∧ invocation_at (site i) ce = Some i.
Proof.
  unfold invocations. rewrite list_elem_of_omap. split.
  - intros (o & Ho & Hi). simpl in Hi. subst o.
    apply elem_of_lookup_imap in Ho as (k & ce & Hk & Hce).
    symmetry in Hk. pose proof (invocation_at_site _ _ _ Hk) as <-. eauto.
  - intros (ce & Hce & Hi). exists (Some i). split; [|done].
    apply elem_of_lookup_imap. eauto.
Qed.

Lemma invocations_site_lt tr i : i ∈ invocations tr → (site i < length tr)%nat.
Proof.
  rewrite elem_of_invocations. intros (ce & Hce & _). by eapply lookup_lt_Some.
Qed.

(** A run holds every nominal call that comes before one it holds. *)
Lemma run_all_earlier lib i j :
  i ∈ invocations (trace (run_all lib notebook).2) →
  j ∈ I → (site j < site i)%nat →
  j ∈ invocations (trace (run_all lib notebook).2).
Proof.
  intros Hi Hj Hlt. destruct (run_all_trace lib) as [rest Hrest].
  apply invocations_site_lt in Hi.
  change I with (invocations T) in Hj. rewrite Hrest in Hj.
  apply elem_of_invocations in Hj as (ce & Hce & Hat).
  apply elem_of_invocations. exists ce. split; [|done].
  rewrite lookup_app_l in Hce; [done|lia].
Qed.

Lemma run_all_invocation lib i :
  i ∈ invocations (trace (run_all lib notebook).2) → i ∈ I.
Proof. apply prefix_elem_of, run_all_invocations. Qed.

(** Every operation of every run is an operation of the nominal run. *)
Lemma run_all_event lib ce : ce ∈ trace (run_all lib notebook).2 → ce ∈ T.
Proof. apply prefix_elem_of, run_all_trace. Qed.

Lemma forallb_elem_of {A} (p : A → bool) (l : list A) x :
  forallb p l = true → x ∈ l → p x = true.
Proof. rewrite forallb_forall, list_elem_of_In. auto. Qed.

Lemma existsb_elem_of {A} (p : A → bool) (l : list A) :
  existsb p l = true → ∃ x, x ∈ l ∧ p x = true.
Proof.
  rewrite existsb_exists. intros (x & Hx & Hp). exists x.
  by rewrite list_elem_of_In.
Qed.

Lemma is_method_on_callee m name j :
  is_method_on m name j = true → callee j = VAttrOf (VObj m) name.
Proof.
  unfold is_method_on. destruct (callee j) as [| | | | | | | | | | | | |o a| |]; try done.
  destruct o; try done.
  intros [Hn Ha]%andb_prop.
  apply Nat.eqb_eq in Hn as ->. by apply String.eqb_eq in Ha as ->.
Qed.

(** Checking a property of every element of a list by computation. *)
Lemma Forall_by {A} (P : A → Prop) (p : A → bool) (l : list A) :
  (∀ x, p x = true → P x) → forallb p l = true → Forall P l.
Proof.
  intros Hp Hl. apply Forall_forall. intros x Hx.
  apply Hp. by eapply forallb_elem_of.
Qed.

(** ** Warnings and errors *)

(** C1.  Exactly one code cell, cell 46, changes the warning behaviour, with
    the single call [warnings.filterwarnings('ignore')]; no cell contains a
    [try], a [with], a [raise] or an [assert]; the nominal run completes;
    whatever operation the library fails first, Run All ends there with that
    very exception and performs nothing after it, so no failure of an
    operation the notebook reaches goes unraised; and in every run the only
    call that reaches into [warnings] is that one. *)
Theorem C1_one_warning_filter_no_handlers :
  calls_on_in "warnings" notebook
    = [(46%nat, ECall ($"warnings" ∙ "filterwarnings") [EStr "ignore"] [])]
  ∧ cells_where has_try notebook = []
  ∧ concat (map constructs_of notebook) = []
  ∧ nominal.1 = Done tt
  ∧ (∀ lib,
       match first_fault lib 0 (length T) with
       | None => run_all lib notebook = nominal
       | Some (n, x) =>
           (run_all lib notebook).1 = Raised x ∧
           trace (run_all lib notebook).2 = take (S n) T
       end)
  ∧ (∀ lib n x,
       (n < length T)%nat → lib n = Some x →
       ∃ y, (run_all lib notebook).1 = Raised y)
  ∧ (∀ lib i,
       i ∈ invocations (trace (run_all lib notebook).2) →
       touches "warnings" (callee i) = true →
       i = Invocation 414 46 (VAttrOf (VModule "warnings") "filterwarnings")
             [VStr "ignore"] []).
Proof.
  split; [by vm_compute|]. split; [by vm_compute|]. split; [by vm_compute|].
  split; [apply nominal_done|].
  split; [|split].
  - intros lib. pose proof (run_all_cut lib) as H.
    destruct (first_fault lib 0 (length T)) as [[n x]|]; [|done].
    split; apply H.
  - intros lib n x Hn Hx. pose proof (run_all_cut lib) as H.
    destruct (first_fault lib 0 (length T)) as [[k y]|] eqn:Hf.
    + exists y. exact (proj1 H).
    + clear H. assert (Hr : (0 ≤ n < 0 + length T)%nat).
      { split; [apply Nat.le_0_l|exact Hn]. }
      rewrite (first_fault_None lib 0 (length T) n Hf Hr) in Hx. discriminate Hx.
  - intros lib i Hi Ht.
    apply (prefix_elem_of _ _ _ (run_all_invocations lib)) in Hi.
    pose proof (elem_of_filter_true (λ i, touches "warnings" (callee i)) I i Hi Ht) as H.
    vm_compute in H. apply list_elem_of_In in H. by destruct H.
Qed.

(** A library without [sklearn.cross_validation] fails the import at
    position 7 of the log. *)
Lemma C1_witness :
  T !! 7%nat = Some (2%nat, EvImport "sklearn" (Some "cross_validation"))
  ∧ ∃ y, (run_all (λ n, if Nat.eqb n 7 then Some "ImportError" else None) notebook).1
         = Raised y.
Proof.
  split; [reflexivity|].
  apply (proj1 (proj2 (proj2 (proj2 (proj2 (proj2
           C1_one_warning_filter_no_handlers)))))
           (λ n, if Nat.eqb n 7 then Some "ImportError" else None) 7%nat "ImportError").
  - apply Nat.ltb_lt. vm_compute. reflexivity.
  - reflexivity.
Defined.

(** ** The demonstration cells *)

(** C2, counterexample.  The SVM cell (cell 39) is a demonstration cell and
    instantiates three estimators, one per kernel; the clustering cells
    instantiate four each and compute no metric. *)
Lemma C2_counterexample :
  (39%nat ∈ demonstration_cells I notebook
   ∧ estimators (profile_of I 39) = 3%nat
   ∧ estimators (profile_of I 47) = 4%nat
   ∧ metrics (profile_of I 47) = 0%nat)
  ∧ ¬ one_estimator_each I R notebook.
Proof.
  assert (H39 : 39%nat ∈ demonstration_cells I notebook).
  { apply list_elem_of_In. vm_compute. do 14 right. by left. }
  split; [repeat split; [exact H39|by vm_compute..]|].
  intros H. destruct (H 39%nat H39) as (_ & Hone & _).
  vm_compute in Hone. discriminate Hone.
Qed.

(** C2, amended.  The demonstration cells are the nine regression cells,
    the seven classification cells and the two clustering cells.  Each reads
    a dataset and calls [fit] once and [predict] once on every estimator it
    instantiates.  A regression cell instantiates one estimator and prints
    two metrics; a classification cell other than the SVM cell instantiates
    one estimator and prints one metric; the SVM cell instantiates three
    estimators and prints three metrics; a clustering cell instantiates four
    estimators, computes no metric and plots.  Everything printed outside
    the set-up cell (cell 2) is a metric. *)
Theorem C2_demonstration_cells :
  map (λ c, (c, profile_of I c)) (demonstration_cells I notebook)
    = map (λ c, (c, Profile 1 1 1 2 2 0)) [10; 12; 14; 16; 18; 20; 22; 24; 26]%nat
      ++ map (λ c, (c, Profile 1 1 1 1 1 0)) [29; 31; 33; 35; 37]%nat
      ++ [(39%nat, Profile 3 3 3 3 3 0); (41%nat, Profile 1 1 1 1 1 0)]
      ++ map (λ c, (c, Profile 4 4 4 0 0 30)) [47; 49]%nat
  ∧ Forall (λ c, datasets_read I R c ≠ []) (demonstration_cells I notebook)
  ∧ Forall (λ m, length (sites_of (is_method_on m "fit") I) = 1%nat
                 ∧ length (sites_of (is_method_on m "predict") I) = 1%nat)
      (model_sites I)
  ∧ Forall (λ i, is_Some (printed_metric T i))
      (List.filter (λ i, is_print (callee i) && negb (Nat.eqb (at_cell i) 2)) I).
Proof.
  split; [by vm_compute|]. split; [|split].
  - apply (Forall_by _ (λ c, match datasets_read I R c with [] => false | _ => true end)).
    + intros c. by destruct (datasets_read I R c).
    + by vm_compute.
  - apply (Forall_by _ (λ m,
      Nat.eqb (length (sites_of (is_method_on m "fit") I)) 1
      && Nat.eqb (length (sites_of (is_method_on m "predict") I)) 1)).
    + intros m [H1 H2]%andb_prop.
      apply Nat.eqb_eq in H1. apply Nat.eqb_eq in H2. split; assumption.
    + by vm_compute.
  - apply (Forall_by _ (λ i, match printed_metric T i with Some _ => true | None => false end)).
    + intros i. by destruct (printed_metric T i).
    + by vm_compute.
Qed.

(** ** Fit, then predict, then score *)

(** C3, counterexample.  The first k-means model (made at site 423, in cell
    47) is fitted and then predicts at site 427, and no metric call takes
    that prediction: the clustering cells compute no metric. *)
Lemma C3_counterexample :
  (423%nat ∈ model_sites I
   ∧ cell_of_site I 423 = Some 47%nat
   ∧ sites_of (is_method_on 423 "predict") I = [427%nat]
   ∧ scored_by I 427 = [])
  ∧ ¬ every_model_scored I.
Proof.
  assert (Hm : 423%nat ∈ model_sites I).
  { apply list_elem_of_In. vm_compute. do 18 right. by left. }
  split; [repeat split; [exact Hm|by vm_compute..]|].
  intros H. destruct (H 423%nat Hm) as (f & p & _ & Hp & _ & Hs).
  apply list_elem_of_In in Hp. vm_compute in Hp.
  destruct Hp as [<-|[]]. apply Hs. by vm_compute.
Qed.

Lemma in_order_b_spec m s : in_order_b m s = true → in_order m s.
Proof.
  unfold in_order_b, in_order. intros H.
  apply andb_prop in H as [H H5]. apply andb_prop in H as [H H4].
  apply andb_prop in H as [H H3]. apply andb_prop in H as [H1 H2].
  apply Nat.ltb_lt in H3, H4. repeat split; try assumption.
  - eapply Forall_by; [|exact H1]. intros d [Ha Hb]%andb_prop. split.
    + eapply Forall_by; [|exact Ha]. intros x. apply Nat.ltb_lt.
    + by apply Nat.ltb_lt.
  - eapply Forall_by; [|exact H2]. intros x. apply Nat.ltb_lt.
  - eapply Forall_by; [|exact H5]. intros x. apply Nat.ltb_lt.
Qed.

Lemma fit_first_all : forallb (fit_first I) I = true.
Proof. by vm_compute. Qed.

Lemma scores_a_prediction_all : forallb (scores_a_prediction I) I = true.
Proof. by vm_compute. Qed.

(** C3, amended.  In every run, under any library, [predict] is called on
    an object only after [fit] was called on that object, and every metric
    is computed from the output of an earlier [predict] call of the same
    cell.  In the nominal run every model goes through its stages in order:
    the data is loaded, then split (classification only), then the model is
    instantiated and fitted, then it predicts, then the prediction is
    scored; the prediction is scored by a metric for every model except
    those of the two clustering cells, which compute no metric. *)
Theorem C3_fit_before_predict_before_score :
  (∀ lib i o,
     i ∈ invocations (trace (run_all lib notebook).2) →
     callee i = VAttrOf o "predict" →
     ∃ j, j ∈ invocations (trace (run_all lib notebook).2)
          ∧ callee j = VAttrOf o "fit" ∧ (site j < site i)%nat)
  ∧ (∀ lib i,
       i ∈ invocations (trace (run_all lib notebook).2) →
       is_metric (callee i) = true →
       ∃ e p j, actuals i = [e; VObj p]
                ∧ j ∈ invocations (trace (run_all lib notebook).2)
                ∧ site j = p ∧ is_method "predict" j = true
                ∧ at_cell j = at_cell i ∧ (p < site i)%nat)
  ∧ Forall (λ m, ∃ s, stages_of I m = Some s
                      ∧ loaded s ≠ [] ∧ in_order m s
                      ∧ (scores s = [] ↔ cell_of_site I m = Some 47%nat
                                         ∨ cell_of_site I m = Some 49%nat))
      (model_sites I).
Proof.
  split; [|split].
  - intros lib i o Hi Hc.
    pose proof (forallb_elem_of _ _ i fit_first_all (run_all_invocation lib i Hi)) as H.
    unfold fit_first in H. rewrite Hc in H. cbv beta iota in H.
    rewrite String.eqb_refl in H. destruct o; try discriminate H.
    apply existsb_elem_of in H as (j & Hj & [Hf Hlt]%andb_prop).
    apply Nat.ltb_lt in Hlt. exists j. split; [|split].
    + by apply (run_all_earlier lib i j).
    + by apply is_method_on_callee.
    + exact Hlt.
  - intros lib i Hi Hm.
    pose proof (forallb_elem_of _ _ i scores_a_prediction_all
                  (run_all_invocation lib i Hi)) as H.
    unfold scores_a_prediction in H. rewrite Hm in H.
    destruct (actuals i) as [|e [|[| | | | | | | | | | | |p| | |] [|]]];
      try discriminate H.
    apply existsb_elem_of in H as (j & Hj & H).
    apply andb_prop in H as [H Hlt]. apply andb_prop in H as [H Hc].
    apply andb_prop in H as [Hs Hp].
    apply Nat.eqb_eq in Hs, Hc. apply Nat.ltb_lt in Hlt.
    exists e, p, j. subst p. repeat split; try done.
    by apply (run_all_earlier lib i j).
  - apply (Forall_by _ (λ m,
      match stages_of I m with
      | Some s =>
          negb (is_nil (loaded s)) && in_order_b m s
          && Bool.eqb (is_nil (scores s)) (in_cells [47; 49]%nat (cell_of_site I m))
      | None => false
      end)); [|by vm_compute].
    intros m H. destruct (stages_of I m) as [s|]; [|discriminate H].
    apply andb_prop in H as [H Hc]. apply andb_prop in H as [Hl Ho].
    exists s. split; [done|]. split; [by destruct (loaded s)|].
    split; [by apply in_order_b_spec|].
    apply Bool.eqb_prop in Hc.
    destruct (cell_of_site I m) as [c|]; simpl in Hc.
    + rewrite orb_false_r in Hc. destruct (scores s); simpl in Hc.
      * symmetry in Hc. apply orb_prop in Hc as [Hc|Hc];
          apply Nat.eqb_eq in Hc; subst c; split; auto.
      * symmetry in Hc. apply orb_false_elim in Hc as [H1 H2].
        apply Nat.eqb_neq in H1, H2.
        split; [done|]. intros [[= ->]|[= ->]]; done.
    + destruct (scores s); simpl in Hc; [done|].
      split; [done|]. intros [|]; done.
Qed.

Lemma C3_witness :
  ∃ j, j ∈ invocations (trace (run_all quiet notebook).2)
       ∧ callee j = VAttrOf (VObj 74) "fit" ∧ (site j < 82)%nat.
Proof.
  assert (Hi : Invocation 82 10 (VAttrOf (VObj 74) "predict") [VAttrOf (VObj 23) "data"] []
               ∈ invocations (trace (run_all quiet notebook).2)).
  { apply (elem_of_filtered (λ i, Nat.eqb (site i) 82)). vm_compute. left. }
  exact (proj1 C3_fit_before_predict_before_score quiet _ (VObj 74) Hi eq_refl).
Defined.

(** ** What the metrics are computed on *)

(** C4.  The diabetes dataset is the object loaded at site 23.  Each of the
    nine regression cells fits its estimator on [diabetes.data] and
    [diabetes.target], predicts on the same [diabetes.data] and computes
    the mean squared error and R2 of that prediction against the same
    [diabetes.target].  Each of the seven classification cells calls
    [train_test_split] once on a bundled dataset with [test_size=0.2], that
    is 20%, fits on items 0 and 2 of the split ([X_train], [y_train]),
    predicts on item 1 ([X_test]) and computes its classification report of
    that prediction against item 3 ([y_test]); the SVM cell does so three
    times on its one split. *)
Theorem C4_training_scores_and_held_out_scores :
  List.find (λ i, Nat.eqb (site i) 23) I
    = Some (Invocation 23 2 (VSymbol "sklearn.datasets" "load_diabetes") [] [])
  ∧ cells_scoring "mean_squared_error" I = [10; 12; 14; 16; 18; 20; 22; 24; 26]%nat
  ∧ cells_scoring "r2_score" I = [10; 12; 14; 16; 18; 20; 22; 24; 26]%nat
  ∧ Forall (λ c,
      training I c = [[VAttrOf (VObj 23) "data"; VAttrOf (VObj 23) "target"]]
      ∧ tested I c = [[VAttrOf (VObj 23) "data"]]
      ∧ scored I c
          = [(VSymbol "sklearn.metrics" "mean_squared_error",
              Some (VAttrOf (VObj 23) "target"), Some [VAttrOf (VObj 23) "data"]);
             (VSymbol "sklearn.metrics" "r2_score",
              Some (VAttrOf (VObj 23) "target"), Some [VAttrOf (VObj 23) "data"])])
      (cells_scoring "mean_squared_error" I)
  ∧ cells_scoring "classification_report" I = [29; 31; 33; 35; 37; 39; 41]%nat
  ∧ Forall (λ c, ∃ s d k,
      splits_in I c
        = [Invocation s c
             (VAttrOf (VSymbol "sklearn" "cross_validation") "train_test_split")
             [VAttrOf (VObj d) "data"; VAttrOf (VObj d) "target"]
             [("test_size", VDec 2 1)]]
      ∧ made_at is_dataset_source I d = true
      ∧ (1 ≤ k)%nat
      ∧ training I c
          = replicate k [VItemOf (VObj s) (VInt 0); VItemOf (VObj s) (VInt 2)]
      ∧ tested I c = replicate k [VItemOf (VObj s) (VInt 1)]
      ∧ scored I c
          = replicate k (VSymbol "sklearn.metrics" "classification_report",
                         Some (VItemOf (VObj s) (VInt 3)),
                         Some [VItemOf (VObj s) (VInt 1)]))
      (cells_scoring "classification_report" I)
  ∧ as_percent (VDec 2 1) = Some 20
  ∧ forallb (reads_its_part I) R = true.
Proof.
  assert (Er : cells_scoring "mean_squared_error" I
               = [10; 12; 14; 16; 18; 20; 22; 24; 26]%nat) by (by vm_compute).
  assert (Ec : cells_scoring "classification_report" I
               = [29; 31; 33; 35; 37; 39; 41]%nat) by (by vm_compute).
  split; [by vm_compute|]. split; [exact Er|]. split; [by vm_compute|].
  split; [rewrite Er; repeat constructor; by vm_compute|].
  split; [exact Ec|].
  split; [|split; by vm_compute].
  rewrite Ec. repeat apply List.Forall_cons; [| | | | | | |apply List.Forall_nil].
  - exists 221%nat, 18%nat, 1%nat. repeat split; first [lia | by vm_compute].
  - exists 234%nat, 28%nat, 1%nat. repeat split; first [lia | by vm_compute].
  - exists 247%nat, 18%nat, 1%nat. repeat split; first [lia | by vm_compute].
  - exists 260%nat, 28%nat, 1%nat. repeat split; first [lia | by vm_compute].
  - exists 273%nat, 18%nat, 1%nat. repeat split; first [lia | by vm_compute].
  - exists 286%nat, 28%nat, 3%nat. repeat split; first [lia | by vm_compute].
  - exists 313%nat, 28%nat, 1%nat. repeat split; first [lia | by vm_compute].
Qed.

(** ** What cells share *)

Lemma run_all_read lib r : r ∈ reads (run_all lib notebook).2 → r ∈ R.
Proof. apply prefix_elem_of, run_all_reads. Qed.

(** C5, counterexample.  The last cell (cell 49) reads [circles], whose
    value is the dataset made at site 330 by [make_circles] in cell 44. *)
Lemma C5_counterexample :
  (Read 49 "circles" (Some 44%nat) (VObj 330) ∈ R
   ∧ List.find (λ i, Nat.eqb (site i) 330) I
       = Some (Invocation 330 44 (VSymbol "sklearn.datasets" "make_circles") []
                 [("n_samples", VInt 1000); ("factor", VDec 5 1); ("noise", VDec 5 2)])
   ∧ foreign_objects is_entity I (Read 49 "circles" (Some 44%nat) (VObj 330)) = [330%nat])
  ∧ ¬ used_where_made I R.
Proof.
  assert (Hr : Read 49 "circles" (Some 44%nat) (VObj 330) ∈ R).
  { apply (elem_of_filtered
      (λ r, Nat.eqb (reader r) 49 && String.eqb (name_read r) "circles")).
    vm_compute. left. }
  split; [repeat split; [exact Hr|by vm_compute..]|].
  intros H. specialize (H _ Hr). vm_compute in H. discriminate H.
Qed.

(** C5, amended.  In every run, no estimator, transformer or split object is
    read outside the cell that made it, and every name read across cells
    was bound by cell 2, 4 or 44, never by a demonstration cell; with any
    one demonstration cell skipped Run All still completes.  The dataset
    containers are shared: the bundled datasets loaded by cell 2 are read by
    the visualisation cells and by every regression and classification
    cell, the synthetic datasets, [colors] and [StandardScaler] bound by
    cell 44 are read by both clustering cells, and with cell 44 skipped
    cell 47 stops on a [NameError]. *)
Theorem C5_models_stay_datasets_are_shared :
  (∀ lib r, r ∈ reads (run_all lib notebook).2 → foreign_objects is_model I r = [])
  ∧ (∀ lib r, r ∈ reads (run_all lib notebook).2 →
       crosses r = true → in_cells [2; 4; 44]%nat (binder r) = true)
  ∧ List.filter (λ c, in_cells [2; 4; 44]%nat (Some c)) (demonstration_cells I notebook) = []
  ∧ Forall (λ k, (run_all quiet (without k notebook)).1 = Done tt)
      (demonstration_cells I notebook)
  ∧ map (λ id, (id, readers_of R 2 id)) ["iris"; "diabetes"; "digits"]
      = [("iris", [4; 5; 29; 33; 37]%nat);
         ("diabetes", [6; 10; 12; 14; 16; 18; 20; 22; 24; 26]%nat);
         ("digits", [7; 31; 35; 39; 41]%nat)]
  ∧ map (λ id, (id, readers_of R 44 id)) (crossing_names R 44)
      = [("circles", [47; 49]%nat); ("moons", [47; 49]%nat); ("blobs", [47; 49]%nat);
         ("noise", [47; 49]%nat); ("StandardScaler", [47; 49]%nat);
         ("colors", [47; 49]%nat)]
  ∧ (run_all quiet (without 44 notebook)).1 = Raised "NameError"
  ∧ running (run_all quiet (without 44 notebook)).2 = 47%nat.
Proof.
  split; [|split; [|split; [by vm_compute|split]]].
  - intros lib r Hr%run_all_read.
    assert (H : forallb (λ r, is_nil (foreign_objects is_model I r)) R = true)
      by (by vm_compute).
    pose proof (forallb_elem_of _ _ r H Hr) as Hn. clear H. cbv beta in Hn.
    destruct (foreign_objects is_model I r); [reflexivity|].
    simpl in Hn. discriminate Hn.
  - intros lib r Hr%run_all_read Hc.
    assert (H : forallb (λ r, if crosses r then in_cells [2; 4; 44]%nat (binder r)
                              else true) R = true) by (by vm_compute).
    pose proof (forallb_elem_of _ _ r H Hr) as Hn. clear H.
    cbv beta in Hn. rewrite Hc in Hn. exact Hn.
  - apply (Forall_by _ (λ k, match (run_all quiet (without k notebook)).1 with
                             | Done tt => true
                             | _ => false
                             end)); [|by vm_compute].
    intros k. destruct (run_all quiet (without k notebook)).1 as [[]|];
      [reflexivity|discriminate].
  - repeat split; by vm_compute.
Qed.

Lemma C5_witness :
  Read 49 "circles" (Some 44%nat) (VObj 330) ∈ reads (run_all quiet notebook).2
  ∧ foreign_objects is_model I (Read 49 "circles" (Some 44%nat) (VObj 330)) = []
  ∧ in_cells [2; 4; 44]%nat (Some 44%nat) = true.
Proof.
  assert (Hr : Read 49 "circles" (Some 44%nat) (VObj 330)
               ∈ reads (run_all quiet notebook).2).
  { apply (elem_of_filtered
      (λ r, Nat.eqb (reader r) 49 && String.eqb (name_read r) "circles")).
    vm_compute. left. }
  split; [exact Hr|]. split.
  - exact (proj1 C5_models_stay_datasets_are_shared quiet _ Hr).
  - exact (proj1 (proj2 C5_models_stay_datasets_are_shared) quiet _ Hr eq_refl).
Defined.

(** ** What the notebook calls *)

Lemma harmless_all : forallb (harmless I) T = true.
Proof. by vm_compute. Qed.

Lemma harmless_spec l (ce : nat * event) :
  harmless l ce = true →
  ∃ e, footprint l ce.2 = Some e
       ∧ persists e = false
       ∧ (touches_a_file e = true →
          (∃ line, ce.2 = EvMagic line) ∨ (∃ m n, ce.2 = EvImport m n)
          ∨ ∃ f, ce = (2%nat, EvCall f [] []) ∧ describe l 4 f ∈ reads_package_data).
Proof.
  unfold harmless. destruct (footprint l ce.2) as [e|]; [|discriminate].
  intros [Hp Ht]%andb_prop. exists e. split; [reflexivity|].
  split; [by destruct (persists e)|]. intros He. rewrite He in Ht.
  destruct ce as [c ev]. simpl in *.
  destruct ev as [line|m n| | | | |f args kw| | | |]; try discriminate Ht.
  - left. by exists line.
  - right. left. by exists m, n.
  - right. right. destruct args; [|discriminate Ht]. destruct kw; [|discriminate Ht].
    apply andb_prop in Ht as [Hc Hf]. apply Nat.eqb_eq in Hc as ->.
    exists f. split; [reflexivity|]. by apply bool_decide_eq_true in Hf.
Qed.

(** C6, counterexample.  The first call of the notebook, [load_boston()]
    in cell 2, opens a file: it reads the data from a file shipped inside
    scikit-learn.  And cell 5 ends in the expression [radviz(...)], whose
    value Jupyter shows under the plot.  So it is not so that no cell opens
    any file, nor that nothing is shown but printed text and plots. *)
Lemma C6_counterexample :
  T !! 13%nat = Some (2%nat, EvCall (VSymbol "sklearn.datasets" "load_boston") [] [])
  ∧ footprint I (EvCall (VSymbol "sklearn.datasets" "load_boston") [] [])
    = Some ReadsPackageData
  ∧ touches_a_file ReadsPackageData = true
  ∧ values_shown I notebook T = [(5%nat, "pandas.tools.plotting.radviz")]
  ∧ ¬ no_persisted_state I notebook T.
Proof.
  split; [reflexivity|]. split; [by vm_compute|]. split; [reflexivity|].
  split; [by vm_compute|].
  intros [H _].
  assert (Hin : (2%nat, EvCall (VSymbol "sklearn.datasets" "load_boston") [] []) ∈ T).
  { apply (elem_of_filtered
             (λ ce, match ce.2 with
                    | EvCall (VSymbol _ n) _ _ => String.eqb n "load_boston"
                    | _ => false
                    end)). vm_compute. left. }
  assert (Hf : footprint I (2%nat, EvCall (VSymbol "sklearn.datasets" "load_boston") [] []).2
               = Some ReadsPackageData) by (by vm_compute).
  destruct (H _ _ Hin Hf) as [Ht _]. discriminate Ht.
Qed.

(** C6, amended.  The notebook defines nothing (no function, no class), its
    one magic selects inline plots, it imports nothing but [time],
    [random], [warnings], numpy, matplotlib, pandas and scikit-learn, uses
    no builtin but [print], [enumerate] and [len], and its nominal run
    completes.  In every run, under any library, every operation prints,
    draws on an inline figure, works in memory, reads data shipped inside
    the installed library, or loads the code of a module: none opens,
    writes or deletes a file the notebook names, none reaches the network.
    The operations that open files are the magic and the imports, which
    load code of the installation (and may leave bytecode or the caches of
    a library behind, where Python and the library choose), and the five
    loaders of cell 2, each called with no argument, so that the file it
    reads is the library's.  Besides what the cells print and draw, one
    value is shown: that of [radviz(...)], which ends cell 5. *)
Theorem C6_no_file_of_its_own :
  concat (map constructs_of notebook) = []
  ∧ imported_modules notebook
    = ["time"; "numpy"; "matplotlib.pyplot"; "sklearn.metrics"; "sklearn";
       "sklearn.datasets"; "pandas"; "pandas.tools.plotting"; "random";
       "sklearn.linear_model"; "sklearn.neighbors"; "sklearn.tree";
       "sklearn.ensemble"; "sklearn.svm"; "sklearn.lda"; "sklearn.naive_bayes";
       "sklearn.preprocessing"; "warnings"; "sklearn.cluster"]
  ∧ magics notebook = ["matplotlib inline"]
  ∧ builtins_used R = ["print"; "enumerate"; "len"]
  ∧ nominal.1 = Done tt
  ∧ (∀ lib ce,
       ce ∈ trace (run_all lib notebook).2 →
       ∃ e, footprint I ce.2 = Some e
            ∧ (e = Prints ∨ e = Draws ∨ e = InMemory ∨ e = ReadsPackageData
               ∨ e = LoadsCode))
  ∧ (∀ lib ce e,
       ce ∈ trace (run_all lib notebook).2 →
       footprint I ce.2 = Some e → touches_a_file e = true →
       (∃ line, ce.2 = EvMagic line) ∨ (∃ m n, ce.2 = EvImport m n)
       ∨ ∃ f, ce = (2%nat, EvCall f [] []) ∧ describe I 4 f ∈ reads_package_data)
  ∧ map (λ x, (x.1.1, x.1.2.2, x.2))
      (List.filter (λ x, match x.1.2.2 with EvCall _ _ _ => true | _ => false end)
         (files_touched I T))
    = [(13%nat, EvCall (VSymbol "sklearn.datasets" "load_boston") [] [],
        Some ReadsPackageData);
       (18%nat, EvCall (VSymbol "sklearn.datasets" "load_iris") [] [],
        Some ReadsPackageData);
       (23%nat, EvCall (VSymbol "sklearn.datasets" "load_diabetes") [] [],
        Some ReadsPackageData);
       (28%nat, EvCall (VSymbol "sklearn.datasets" "load_digits") [] [],
        Some ReadsPackageData);
       (33%nat, EvCall (VSymbol "sklearn.datasets" "load_linnerud") [] [],
        Some ReadsPackageData)]
  ∧ map (λ x, x.2)
      (List.filter (λ x, match x.1.2.2 with EvCall _ _ _ => false | _ => true end)
         (files_touched I T))
    = replicate 40 (Some LoadsCode)
  ∧ values_shown I notebook T = [(5%nat, "pandas.tools.plotting.radviz")].
Proof.
  split; [by vm_compute|].
  split; [by vm_compute|]. split; [by vm_compute|]. split; [by vm_compute|].
  split; [apply nominal_done|].
  assert (H : ∀ lib ce, ce ∈ trace (run_all lib notebook).2 → harmless I ce = true).
  { intros lib ce Hce%run_all_event. exact (forallb_elem_of _ _ ce harmless_all Hce). }
  split; [|split; [|repeat split; by vm_compute]].
  - intros lib ce Hce. destruct (harmless_spec _ _ (H lib ce Hce)) as (e & He & Hp & _).
    exists e. split; [exact He|]. destruct e; try discriminate Hp; auto 6.
  - intros lib ce e Hce He Ht.
    destruct (harmless_spec _ _ (H lib ce Hce)) as (e' & He' & _ & Hs).
    rewrite He in He'. injection He' as <-. exact (Hs Ht).
Qed.

(** The nominal run calls [load_iris()] in cell 2; it reads a file of
    scikit-learn. *)
Lemma C6_witness :
  (∃ line, EvCall (VSymbol "sklearn.datasets" "load_iris") [] [] = EvMagic line)
  ∨ (∃ m n, EvCall (VSymbol "sklearn.datasets" "load_iris") [] [] = EvImport m n)
  ∨ ∃ f, (2%nat, EvCall (VSymbol "sklearn.datasets" "load_iris") [] [])
         = (2%nat, EvCall f [] [])
         ∧ describe I 4 f ∈ reads_package_data.
Proof.
  assert (Hin : (2%nat, EvCall (VSymbol "sklearn.datasets" "load_iris") [] [])
                ∈ trace (run_all quiet notebook).2).
  { apply (elem_of_filtered
             (λ ce, match ce.2 with
                    | EvCall (VSymbol _ n) _ _ => String.eqb n "load_iris"
                    | _ => false
                    end)). vm_compute. left. }
  exact (proj1 (proj2 (proj2 (proj2 (proj2 (proj2 (proj2 C6_no_file_of_its_own))))))
           quiet _ ReadsPackageData Hin eq_refl eq_refl).
Defined.

Lemma from_library_all : forallb (from_library I) I = true.
Proof. by vm_compute. Qed.

(** C7.  The notebook holds no function definition, class definition or
    lambda.  In every run, under any library, every call that fits a model,
    predicts, computes a metric or draws resolves, through the imports and
    the objects made on the way, to scikit-learn, pandas, matplotlib or
    numpy; the remaining calls are [print], [len] and
    [warnings.filterwarnings]. *)
Theorem C7_everything_is_delegated :
  concat (map constructs_of notebook) = []
  ∧ (∀ lib i,
       i ∈ invocations (trace (run_all lib notebook).2) →
       ∃ pkg, origin I 4 (callee i) = Some pkg
              ∧ (pkg ∈ ["sklearn"; "pandas"; "matplotlib"; "numpy"]
                 ∨ delegated i = false ∧ pkg ∈ ["warnings"; "builtins"]))
  ∧ List.filter (λ d, negb (bool_decide
                              (package d ∈ ["sklearn"; "pandas"; "matplotlib"; "numpy";
                                            "<sklearn"; "<numpy"])))
      (callees I)
    = ["print"; "warnings.filterwarnings"; "len"]
  ∧ List.filter (λ i, delegated i) I ≠ [].
Proof.
  split; [by vm_compute|]. split; [|split; by vm_compute].
  intros lib i Hi%run_all_invocation.
  pose proof (forallb_elem_of _ _ i from_library_all Hi) as H.
  unfold from_library in H.
  destruct (origin I 4 (callee i)) as [pkg|]; [|discriminate H].
  exists pkg. split; [reflexivity|].
  destruct (delegated i).
  - left. by apply bool_decide_eq_true in H.
  - apply bool_decide_eq_true in H.
    rewrite !elem_of_cons in H. rewrite !elem_of_cons.
    destruct H as [H|[H|[H|[H|[H|[H|H]]]]]]; auto 10.
Qed.

Lemma C7_witness :
  ∃ pkg, origin I 4 (VAttrOf (VObj 74) "fit") = Some pkg
         ∧ (pkg ∈ ["sklearn"; "pandas"; "matplotlib"; "numpy"]
            ∨ delegated (Invocation 78 10 (VAttrOf (VObj 74) "fit")
                           [VAttrOf (VObj 23) "data"; VAttrOf (VObj 23) "target"] [])
              = false ∧ pkg ∈ ["warnings"; "builtins"]).
Proof.
  assert (Hi : Invocation 78 10 (VAttrOf (VObj 74) "fit")
                 [VAttrOf (VObj 23) "data"; VAttrOf (VObj 23) "target"] []
               ∈ invocations (trace (run_all quiet notebook).2)).
  { apply (elem_of_filtered (λ i, Nat.eqb (site i) 78)). vm_compute. left. }
  exact (proj1 (proj2 C7_everything_is_delegated) quiet _ Hi).
Defined.

(** ** One thread of control *)







(** ** Indexing the colours *)

Lemma np_take_in_bounds (a : list value) (labels : list Z) :
  Forall (λ l, 0 ≤ l < Z.of_nat (length a)) labels →
  ∃ out, np_take a labels = Some out ∧ length out = length labels.
Proof.
  intros H.
  assert (Hs : is_Some (np_take a labels)).
  { apply mapM_is_Some. eapply Forall_impl; [exact H|].
    intros l [Hl Hu]. unfold np_item. simpl.
    apply Z.leb_le in Hl as Hl'. apply Z.ltb_lt in Hu as Hu'.
    rewrite Hl', Hu'. simpl. apply lookup_lt_is_Some. lia. }
  destruct Hs as [out Hout]. exists out. split; [exact Hout|].
  symmetry. by eapply length_mapM.
Qed.

(** C8.  Each of the four k-means models is constructed with
    [n_clusters=5].  The [colors] both clustering cells read is the array
    bound by cell 44: the 28 characters of the palette stacked 20 times, 560
    elements, and the k-means cell subscripts it with the four prediction
    vectors.  Subscripting it with any vector of labels in [0, 5) succeeds.
    The affinity propagation models are constructed with a damping and a
    preference only, no number of clusters, and a label such as 560, which
    1000 samples allow, is out of range. *)
Theorem C8_colour_indexing :
  map keywords (constructions "sklearn.cluster" "MiniBatchKMeans" I)
    = replicate 4 [("n_clusters", VInt 5)]
  ∧ name_in R 47 "colors" = Some (VObj 329)
  ∧ name_in R 49 "colors" = Some (VObj 329)
  ∧ cell_of_site I 329 = Some 44%nat
  ∧ array_of T 2 (VObj 329)
      = Some (mjoin (replicate 20 (chars "bgrcmykbgrcmykbgrcmykbgrcmyk")))
  ∧ length (mjoin (replicate 20 (chars "bgrcmykbgrcmykbgrcmykbgrcmyk"))) = 560%nat
  ∧ String.length "bgrcmykbgrcmykbgrcmykbgrcmyk" = 28%nat
  ∧ List.filter (λ k, match k with VObj _ => true | _ => false end) (subscripts T 47 329)
      = map VObj (omap (λ m, predicted <$> stages_of I m)
                    (map site (constructions "sklearn.cluster" "MiniBatchKMeans" I)))
  ∧ (∀ labels,
       Forall (λ l, 0 ≤ l < 5) labels →
       ∃ out, np_take (mjoin (replicate 20 (chars "bgrcmykbgrcmykbgrcmykbgrcmyk"))) labels
                = Some out
              ∧ length out = length labels)
  ∧ map keywords (constructions "sklearn.cluster" "AffinityPropagation" I)
      = replicate 4 [("damping", VDec 92 2); ("preference", VInt (-200))]
  ∧ List.filter (λ k, match k with VObj _ => true | _ => false end) (subscripts T 49 329)
      = map VObj (omap (λ m, predicted <$> stages_of I m)
                    (map site (constructions "sklearn.cluster" "AffinityPropagation" I)))
  ∧ np_take (mjoin (replicate 20 (chars "bgrcmykbgrcmykbgrcmykbgrcmyk"))) [560] = None.
Proof.
  split; [by vm_compute|]. split; [by vm_compute|]. split; [by vm_compute|].
  split; [by vm_compute|]. split; [by vm_compute|]. split; [by vm_compute|].
  split; [by vm_compute|]. split; [by vm_compute|].
  split; [|repeat split; by vm_compute].
  intros labels H. apply np_take_in_bounds.
  eapply Forall_impl; [exact H|]. intros l [Hl Hu]. split; [exact Hl|].
  change (length (mjoin (replicate 20 (chars "bgrcmykbgrcmykbgrcmykbgrcmyk"))))
    with 560%nat. lia.
Qed.

Lemma C8_witness :
  Forall (λ l, 0 ≤ l < 5) [0; 4; 2]
  ∧ ∃ out, np_take (mjoin (replicate 20 (chars "bgrcmykbgrcmykbgrcmykbgrcmyk"))) [0; 4; 2]
             = Some out
           ∧ length out = 3%nat.
Proof.
  assert (H : Forall (λ l, 0 ≤ l < 5) [0; 4; 2]) by (repeat constructor; lia).
  split; [exact H|].
  exact (proj1 (proj2 (proj2 (proj2 (proj2 (proj2 (proj2 (proj2 (proj2
           C8_colour_indexing)))))))) _ H).
Defined.

(** ** Where the centers are drawn *)

(** C9.  In both clustering cells the drawings run, for each dataset in
    turn: the scatter of the centers of its model, then the selection of
    its subplot, then the scatter of its points.  So the centers of the
    first model land on the one axes [plt.subplots] made, the centers of
    every later model on the subplot of the dataset before, and for every
    model the centers are drawn on other axes than the points of the data it
    was fitted on. *)
Theorem C9_centers_on_the_previous_axes :
  drawings I 47
    = [(Centers 423, Some (WholeFigure 417));
       (Select 1, Some (Subplot 417 1 4 1)); (Points 422, Some (Subplot 417 1 4 1));
       (Centers 456, Some (Subplot 417 1 4 1));
       (Select 2, Some (Subplot 417 1 4 2)); (Points 455, Some (Subplot 417 1 4 2));
       (Centers 489, Some (Subplot 417 1 4 2));
       (Select 3, Some (Subplot 417 1 4 3)); (Points 488, Some (Subplot 417 1 4 3));
       (Centers 521, Some (Subplot 417 1 4 3));
       (Select 4, Some (Subplot 417 1 4 4)); (Points 520, Some (Subplot 417 1 4 4))]
  ∧ drawings I 49
    = [(Centers 560, Some (WholeFigure 554));
       (Select 1, Some (Subplot 554 1 4 1)); (Points 559, Some (Subplot 554 1 4 1));
       (Centers 593, Some (Subplot 554 1 4 1));
       (Select 2, Some (Subplot 554 1 4 2)); (Points 592, Some (Subplot 554 1 4 2));
       (Centers 626, Some (Subplot 554 1 4 2));
       (Select 3, Some (Subplot 554 1 4 3)); (Points 625, Some (Subplot 554 1 4 3));
       (Centers 658, Some (Subplot 554 1 4 3));
       (Select 4, Some (Subplot 554 1 4 4)); (Points 657, Some (Subplot 554 1 4 4))]
  ∧ map (λ m, (m, fitted_on I m))
      (List.filter (λ m, in_cells [47; 49]%nat (cell_of_site I m)) (model_sites I))
    = [(423, Some 422); (456, Some 455); (489, Some 488); (521, Some 520);
       (560, Some 559); (593, Some 592); (626, Some 625); (658, Some 657)]%nat
  ∧ Forall (λ m, ∃ x c a b,
              cell_of_site I m = Some c
              ∧ fitted_on I m = Some x
              ∧ axes_of (drawings I c) (is_centers m) = Some a
              ∧ axes_of (drawings I c) (is_points x) = Some b
              ∧ a ≠ b)
      (List.filter (λ m, in_cells [47; 49]%nat (cell_of_site I m)) (model_sites I)).
Proof.
  split; [by vm_compute|]. split; [by vm_compute|]. split; [by vm_compute|].
  assert (E : List.filter (λ m, in_cells [47; 49]%nat (cell_of_site I m)) (model_sites I)
              = [423; 456; 489; 521; 560; 593; 626; 658]%nat) by (by vm_compute).
  rewrite E. repeat apply List.Forall_cons; [| | | | | | | |apply List.Forall_nil].
  - exists 422%nat, 47%nat, (WholeFigure 417), (Subplot 417 1 4 1).
    repeat split; first [by vm_compute | discriminate].
  - exists 455%nat, 47%nat, (Subplot 417 1 4 1), (Subplot 417 1 4 2).
    repeat split; first [by vm_compute | discriminate].
  - exists 488%nat, 47%nat, (Subplot 417 1 4 2), (Subplot 417 1 4 3).
    repeat split; first [by vm_compute | discriminate].
  - exists 520%nat, 47%nat, (Subplot 417 1 4 3), (Subplot 417 1 4 4).
    repeat split; first [by vm_compute | discriminate].
  - exists 559%nat, 49%nat, (WholeFigure 554), (Subplot 554 1 4 1).
    repeat split; first [by vm_compute | discriminate].
  - exists 592%nat, 49%nat, (Subplot 554 1 4 1), (Subplot 554 1 4 2).
    repeat split; first [by vm_compute | discriminate].
  - exists 625%nat, 49%nat, (Subplot 554 1 4 2), (Subplot 554 1 4 3).
    repeat split; first [by vm_compute | discriminate].
  - exists 657%nat, 49%nat, (Subplot 554 1 4 3), (Subplot 554 1 4 4).
    repeat split; first [by vm_compute | discriminate].
Qed.

(** * Further properties of the notebook *)

(** ** What a cell needs before it can run *)

Lemma completes_spec (r : outcome unit * state) : completes r = true → r.1 = Done tt.
Proof.
  unfold completes. destruct r.1 as [[]|]; [reflexivity|discriminate].
Qed.

Lemma name_error_spec (r : outcome unit * state) :
  name_error r = true → r.1 = Raised "NameError".
Proof.
  unfold name_error. destruct r.1 as [|x]; [discriminate|].
  intros H. by apply String.eqb_eq in H as ->.
Qed.

Lemma self_contained_spec rs nb k :
  self_contained rs nb k = true →
  (run_all quiet (only (needs rs 3 k ++ [k]) nb)).1 = Done tt
  ∧ ∀ d, d ∈ needs rs 3 k →
      (run_all quiet
         (only (List.filter (λ x, negb (Nat.eqb x d)) (needs rs 3 k) ++ [k]) nb)).1
      = Raised "NameError".
Proof.
  unfold self_contained. intros [Hc Hn]%andb_prop. split.
  - by apply completes_spec.
  - intros d Hd. apply name_error_spec.
    exact (forallb_elem_of _ _ d Hn Hd).
Qed.

(** X1.  Every code cell runs to its end in a fresh kernel once the cells it
    needs have run, and stops on a [NameError] if any one of them is left
    out.  The cells needed are cell 2 for every cell but cells 2 and 46,
    cell 4 besides for cells 5 and 6, and cell 44 besides for the two
    clustering cells. *)
Theorem X1_cell_prerequisites :
  Forall (λ k,
      (run_all quiet (only (needs R 3 k ++ [k]) notebook)).1 = Done tt
      ∧ ∀ d, d ∈ needs R 3 k →
          (run_all quiet
             (only (List.filter (λ x, negb (Nat.eqb x d)) (needs R 3 k) ++ [k]) notebook)).1
          = Raised "NameError")
    (cells_where is_code notebook)
  ∧ map (λ k, (k, needs R 3 k)) (cells_where is_code notebook)
    = [(2, []); (4, [2]); (5, [2; 4]); (6, [2; 4]); (7, [2])]%nat
      ++ map (λ k, (k, [2%nat]))
           [10; 12; 14; 16; 18; 20; 22; 24; 26; 29; 31; 33; 35; 37; 39; 41; 44]%nat
      ++ [(46, []); (47, [44; 2]); (49, [44; 2])]%nat.
Proof.
  split; [|by vm_compute].
  apply (Forall_by _ (self_contained R notebook)); [|by vm_compute].
  intros k. apply self_contained_spec.
Qed.

(** Cell 47 needs cells 44 and 2; with cell 44 left out it stops on the
    first name cell 44 would have bound. *)
Lemma X1_witness :
  (44%nat ∈ needs R 3 47)
  ∧ (run_all quiet
       (only (List.filter (λ x, negb (Nat.eqb x 44)) (needs R 3 47) ++ [47%nat]) notebook)).1
    = Raised "NameError".
Proof.
  assert (Hk : 47%nat ∈ cells_where is_code notebook).
  { apply (elem_of_filtered (Nat.eqb 47)). vm_compute. left. }
  assert (Hd : 44%nat ∈ needs R 3 47).
  { apply (elem_of_filtered (Nat.eqb 44)). vm_compute. left. }
  split; [exact Hd|].
  exact (proj2 (proj1 (Forall_forall _ _) (proj1 X1_cell_prerequisites) 47%nat Hk) 44%nat Hd).
Defined.

(** ** When the warnings are silenced *)

(** Whether a call comes after the warning filter is the same in a run and
    in the nominal run. *)
Lemma filtered_run lib i :
  i ∈ invocations (trace (run_all lib notebook).2) →
  filtered (invocations (trace (run_all lib notebook).2)) i = filtered I i.
Proof.
  intros Hi. apply Bool.eq_iff_eq_true. unfold filtered.
  rewrite !existsb_exists. split; intros (j & Hj & Hp); exists j; (split; [|exact Hp]).
  - apply list_elem_of_In. apply list_elem_of_In in Hj.
    exact (run_all_invocation lib j Hj).
  - apply list_elem_of_In. apply list_elem_of_In in Hj.
    apply andb_prop in Hp as [_ Hlt]. apply Nat.ltb_lt in Hlt.
    exact (run_all_earlier lib i j Hi Hj Hlt).
Qed.

Lemma filtered_all :
  forallb (λ i, Bool.eqb (filtered I i) (bool_decide (at_cell i ∈ [47; 49]%nat))) I = true.
Proof. by vm_compute. Qed.

(** X2.  In every run, under any library, a call comes after
    [warnings.filterwarnings('ignore')] exactly when it is a call of cell 47
    or of cell 49.  So every regression and classification model (cells 10
    to 41) is fitted, and the data of the preview cell 44 is standardised,
    with warnings shown; only the two clustering cells run with them
    silenced. *)
Theorem X2_warnings_silenced_for_clustering_only :
  (∀ lib i,
     i ∈ invocations (trace (run_all lib notebook).2) →
     filtered (invocations (trace (run_all lib notebook).2)) i
     = bool_decide (at_cell i ∈ [47; 49]%nat))
  ∧ cells_calling "fit" (λ i, negb (filtered I i)) I
    = [10; 12; 14; 16; 18; 20; 22; 24; 26; 29; 31; 33; 35; 37; 39; 41]%nat
  ∧ cells_calling "fit" (filtered I) I = [47; 49]%nat
  ∧ cells_calling "fit_transform" (λ i, negb (filtered I i)) I = [44%nat]
  ∧ cells_calling "fit_transform" (filtered I) I = [47; 49]%nat.
Proof.
  split; [|repeat split; by vm_compute].
  intros lib i Hi. rewrite (filtered_run lib i Hi).
  apply run_all_invocation in Hi.
  apply Bool.eqb_prop. exact (forallb_elem_of _ _ i filtered_all Hi).
Qed.

(** The first fit of the notebook, that of the linear regression of cell
    10, is not silenced. *)
Lemma X2_witness :
  filtered (invocations (trace (run_all quiet notebook).2))
    (Invocation 78 10 (VAttrOf (VObj 74) "fit")
       [VAttrOf (VObj 23) "data"; VAttrOf (VObj 23) "target"] [])
  = bool_decide (10%nat ∈ [47; 49]%nat).
Proof.
  apply (proj1 X2_warnings_silenced_for_clustering_only quiet).
  apply (elem_of_filtered (λ i, Nat.eqb (site i) 78)). vm_compute. left.
Defined.

(** ** What is written to *)

Lemma filter_prefix {A} (p : A → bool) (l k : list A) :
  l `prefix_of` k → List.filter p l `prefix_of` List.filter p k.
Proof. intros [m ->]. rewrite List.filter_app. by apply prefix_app_r. Qed.

Lemma stores_prefix tr tr' : tr `prefix_of` tr' → stores tr `prefix_of` stores tr'.
Proof. intros [m ->]. apply filter_prefix, imap_app_prefix. Qed.

Lemma run_all_store lib s : s ∈ stores (trace (run_all lib notebook).2) → s ∈ stores T.
Proof. apply prefix_elem_of, stores_prefix, run_all_trace. Qed.

(** X3.  In every run, under any library, the only stores into an object
    are the two into the [DataFrame] that cell 4 builds from [iris.data]:
    cell 4 sets its [columns] before it hands it to [scatter_matrix], and
    cell 5 adds the column [species] to that same object, which it finds
    under the name [df], before it hands it to [radviz].  No run stores
    into a dataset, a split, a model or an array. *)
Theorem X3_stores_go_to_one_frame :
  (∀ lib s,
     s ∈ stores (trace (run_all lib notebook).2) →
     s = (45%nat, (4%nat, EvSetAttr (VObj 43) "columns" (VAttrOf (VObj 18) "feature_names")))
     ∨ s = (56%nat, (5%nat, EvSetItem (VObj 43) (VStr "species") (VObj 53))))
  ∧ List.find (λ i, Nat.eqb (site i) 43) I
    = Some (Invocation 43 4 (VAttrOf (VModule "pandas") "DataFrame")
              [VAttrOf (VObj 18) "data"] [])
  ∧ map (λ i, (site i, at_cell i, callee i)) (handed I (VObj 43))
    = [(49, 4, VSymbol "pandas.tools.plotting" "scatter_matrix");
       (57, 5, VSymbol "pandas.tools.plotting" "radviz")]%nat
  ∧ name_in R 5 "df" = Some (VObj 43).
Proof.
  split; [|repeat split; by vm_compute].
  intros lib s Hs%run_all_store. vm_compute in Hs.
  apply list_elem_of_In in Hs. destruct Hs as [<-|[<-|[]]]; [by left|by right].
Qed.

(** The nominal run sets the columns of the frame at position 45 of its
    log. *)
Lemma X3_witness :
  T !! 45%nat
  = Some (4%nat, EvSetAttr (VObj 43) "columns" (VAttrOf (VObj 18) "feature_names"))
  ∧ ((45%nat, (4%nat, EvSetAttr (VObj 43) "columns" (VAttrOf (VObj 18) "feature_names")))
     = (45%nat, (4%nat, EvSetAttr (VObj 43) "columns" (VAttrOf (VObj 18) "feature_names")))
     ∨ (45%nat, (4%nat, EvSetAttr (VObj 43) "columns" (VAttrOf (VObj 18) "feature_names")))
       = (56%nat, (5%nat, EvSetItem (VObj 43) (VStr "species") (VObj 53)))).
Proof.
  split; [reflexivity|].
  apply (proj1 X3_stores_go_to_one_frame quiet).
  apply (elem_of_filtered (λ s, Nat.eqb s.1 45)). vm_compute. left.
Defined.

(** ** Seeds *)

Lemma seeded_spec i :
  seeds i ≠ [] ∨ is_seeding i = true → negb (is_nil (seeds i)) || is_seeding i = true.
Proof.
  intros [H|H].
  - destruct (seeds i); [by destruct H|reflexivity].
  - rewrite H. apply orb_true_r.
Qed.

(** X4.  In every run, under any library, the only call that is given a
    seed ([random_state] or [seed]) is [make_blobs(n_samples=N,
    random_state=9)] in cell 44, and no function named [seed] is called.
    The seven [train_test_split] calls are given none, and
    [np.random.rand(N, 2)] draws the noise dataset from numpy's generator,
    which nothing has seeded. *)
Theorem X4_one_seed :
  (∀ lib i,
     i ∈ invocations (trace (run_all lib notebook).2) →
     seeds i ≠ [] ∨ is_seeding i = true →
     i = Invocation 332 44 (VSymbol "sklearn.datasets" "make_blobs") []
           [("n_samples", VInt 1000); ("random_state", VInt 9)])
  ∧ map seeds (List.filter (λ i, is_split (callee i)) I) = replicate 7 []
  ∧ List.filter is_numpy_random I
    = [Invocation 335 44 (VAttrOf (VAttrOf (VModule "numpy") "random") "rand")
         [VInt 1000; VInt 2] []].
Proof.
  split; [|split; by vm_compute].
  intros lib i Hi%run_all_invocation Hs%seeded_spec.
  pose proof (elem_of_filter_true (λ i, negb (is_nil (seeds i)) || is_seeding i) I i Hi Hs) as H.
  vm_compute in H. apply list_elem_of_In in H. by destruct H.
Qed.

(** The call at position 332 of the nominal log is given a seed. *)
Lemma X4_witness :
  seeds (Invocation 332 44 (VSymbol "sklearn.datasets" "make_blobs") []
           [("n_samples", VInt 1000); ("random_state", VInt 9)])
  = [("random_state", VInt 9)]
  ∧ Invocation 332 44 (VSymbol "sklearn.datasets" "make_blobs") []
      [("n_samples", VInt 1000); ("random_state", VInt 9)]
    = Invocation 332 44 (VSymbol "sklearn.datasets" "make_blobs") []
        [("n_samples", VInt 1000); ("random_state", VInt 9)].
Proof.
  split; [reflexivity|].
  apply (proj1 X4_one_seed quiet).
  - apply (elem_of_filtered (λ i, Nat.eqb (site i) 332)). vm_compute. left.
  - left. discriminate.
Defined.

(** ** Names and datasets nothing uses *)

Lemma is_nil_spec {A} (l : list A) : is_nil l = true → l = [].
Proof. by destruct l. Qed.

(** A name that is read is not among the names never read. *)
Lemma never_read_spec nb rs r : r ∈ rs → name_read r ∉ never_read nb rs.
Proof.
  intros Hr Hin. unfold never_read in Hin.
  apply list_elem_of_In, filter_In in Hin as [_ Hnil].
  apply is_nil_spec in Hnil. unfold readers_of_name in Hnil.
  assert (Hin : reader r ∈ remove_dups
                  (map reader (List.filter (λ r', String.eqb (name_read r') (name_read r)) rs))).
  { apply elem_of_remove_dups, list_elem_of_fmap. exists r. split; [reflexivity|].
    apply elem_of_filter_true; [exact Hr|apply String.eqb_refl]. }
  rewrite Hnil in Hin. by apply elem_of_nil in Hin.
Qed.

(** X5.  Five of the names the notebook binds are read in no run, under any
    library: the modules [time] (imported by cell 2) and [random] (imported
    by cell 7), the figure and axes names [fig] and [axe], and the labels
    [y] that the preview and clustering cells unpack from each dataset. *)
Theorem X5_names_never_read :
  never_read notebook R = ["time"; "random"; "fig"; "axe"; "y"]
  ∧ List.filter (λ cn, bool_decide (cn.2 ∈ never_read notebook R)) (bindings notebook)
    = [(2, "time"); (4, "fig"); (6, "fig"); (7, "random");
       (44, "fig"); (44, "axe"); (44, "y");
       (47, "fig"); (47, "axe"); (47, "y");
       (49, "fig"); (49, "axe"); (49, "y")]%nat
  ∧ ∀ lib r,
      r ∈ reads (run_all lib notebook).2 → name_read r ∉ never_read notebook R.
Proof.
  split; [by vm_compute|]. split; [by vm_compute|].
  intros lib r Hr%run_all_read. by apply never_read_spec.
Qed.

(** The first name the nominal run reads is [load_boston], in cell 2. *)
Lemma X5_witness : "load_boston" ∉ never_read notebook R.
Proof.
  apply (proj2 (proj2 X5_names_never_read) quiet (Read 2 "load_boston" (Some 2%nat)
                                                      (VSymbol "sklearn.datasets" "load_boston"))).
  apply (elem_of_filtered (λ r, String.eqb (name_read r) "load_boston")). vm_compute. left.
Defined.

Lemma read_in_cell_2_all :
  forallb (λ r, if bool_decide (name_read r ∈ ["boston"; "linnerud"])
                then Nat.eqb (reader r) 2 else true) R = true.
Proof. by vm_compute. Qed.

Lemma read_in_cell_2_spec (r : read) :
  (if bool_decide (name_read r ∈ ["boston"; "linnerud"])
   then Nat.eqb (reader r) 2 else true) = true →
  name_read r ∈ ["boston"; "linnerud"] → reader r = 2%nat.
Proof.
  intros H Hn. rewrite (bool_decide_eq_true_2 _ Hn) in H. by apply Nat.eqb_eq.
Qed.

(** X6.  Of the five datasets cell 2 loads, two are used for nothing but
    the line cell 2 prints about them: in every run, under any library,
    [boston] and [linnerud] are read by cell 2 only.  [iris], [diabetes]
    and [digits] are read by the visualisation cells and by the regression
    and classification cells. *)
Theorem X6_two_datasets_are_only_printed :
  (∀ lib r,
     r ∈ reads (run_all lib notebook).2 →
     name_read r ∈ ["boston"; "linnerud"] → reader r = 2%nat)
  ∧ map (λ n, (n, readers_of_name R n)) ["boston"; "iris"; "diabetes"; "digits"; "linnerud"]
    = [("boston", [2]);
       ("iris", [2; 4; 5; 29; 33; 37]);
       ("diabetes", [2; 6; 10; 12; 14; 16; 18; 20; 22; 24; 26]);
       ("digits", [2; 7; 31; 35; 39; 41]);
       ("linnerud", [2])]%nat
  ∧ map (λ i, (site i, at_cell i, callee i)) (handed I (VObj 13) ++ handed I (VObj 33)) = [].
Proof.
  split; [|split; by vm_compute].
  intros lib r Hr%run_all_read. apply read_in_cell_2_spec.
  exact (forallb_elem_of _ _ r read_in_cell_2_all Hr).
Qed.

Lemma X6_witness : reader (Read 2 "linnerud" (Some 2%nat) (VObj 33)) = 2%nat.
Proof.
  apply (proj1 X6_two_datasets_are_only_printed quiet).
  - apply (elem_of_filtered (λ r, String.eqb (name_read r) "linnerud")). vm_compute. left.
  - vm_compute. right. left.
Defined.

(** ** The preview of the synthetic datasets *)

Lemma subplot_in_range_all : forallb subplot_in_range I = true.
Proof. by vm_compute. Qed.

Lemma subplot_in_range_spec i :
  subplot_in_range i = true →
  is_module_attr "matplotlib.pyplot" "subplot" (callee i) = true →
  ∃ k, actuals i = [VInt 1; VInt 4; VInt k] ∧ 1 ≤ k ≤ 4.
Proof.
  unfold subplot_in_range. intros H Hm. rewrite Hm in H.
  repeat match type of H with
         | match ?v with _ => _ end = true =>
             destruct v; try discriminate H; cbv beta iota in H
         end.
  match type of H with (1 <=? ?k) && _ = true => rename k into k' end.
  exists k'. apply andb_prop in H as [H1 H2].
  apply Z.leb_le in H1, H2. done.
Qed.

(** X7.  In every run, under any library, every [plt.subplot] call asks for
    place [k] of a row of four with [1 ≤ k ≤ 4]: the index [idx+1] stays in
    range because [enumerate] runs over a tuple of four datasets.  In the
    preview cell 44 the subplot is selected before the points are drawn, so
    each standardised dataset lands on its own subplot; and in the preview
    and in both clustering cells every tick and label setting lands on one
    of the four subplots of the figure of its cell. *)
Theorem X7_four_subplots :
  (∀ lib i,
     i ∈ invocations (trace (run_all lib notebook).2) →
     is_module_attr "matplotlib.pyplot" "subplot" (callee i) = true →
     ∃ k, actuals i = [VInt 1; VInt 4; VInt k] ∧ 1 ≤ k ≤ 4)
  ∧ drawings I 44
    = [(Select 1, Some (Subplot 337 1 4 1)); (Points 342, Some (Subplot 337 1 4 1));
       (Select 2, Some (Subplot 337 1 4 2)); (Points 360, Some (Subplot 337 1 4 2));
       (Select 3, Some (Subplot 337 1 4 3)); (Points 378, Some (Subplot 337 1 4 3));
       (Select 4, Some (Subplot 337 1 4 4)); (Points 395, Some (Subplot 337 1 4 4))]
  ∧ map (λ s, (s, site <$> calls_on_object I s))
      (map site (List.filter (λ i, Nat.eqb (at_cell i) 44)
                   (constructions "sklearn.preprocessing" "StandardScaler" I)))
    = [(340, [342]); (358, [360]); (376, [378]); (393, [395])]%nat
  ∧ Forall (λ cf,
      decorations I cf.1
      = mjoin (map (λ k, map (λ a, (a, Some (Subplot cf.2 1 4 k)))
                           ["xticks"; "yticks"; "ylabel"; "xlabel"])
                 [1; 2; 3; 4]))
      [(44, 337); (47, 417); (49, 554)]%nat.
Proof.
  split; [|split; [by vm_compute|split; [by vm_compute|]]].
  - intros lib i Hi%run_all_invocation. apply subplot_in_range_spec.
    exact (forallb_elem_of _ _ i subplot_in_range_all Hi).
  - repeat apply List.Forall_cons; [by vm_compute..|apply List.Forall_nil].
Qed.

Lemma X7_witness :
  ∃ k, actuals (Invocation 344 44 (VAttrOf (VModule "matplotlib.pyplot") "subplot")
                  [VInt 1; VInt 4; VInt 1] [])
       = [VInt 1; VInt 4; VInt k] ∧ 1 ≤ k ≤ 4.
Proof.
  apply (proj1 X7_four_subplots quiet).
  - apply (elem_of_filtered (λ i, Nat.eqb (site i) 344)). vm_compute. left.
  - reflexivity.
Defined.

(** ** The colours of the iris plots *)

Lemma cmap_item (k : Z) :
  dict_item (VDict [(VInt 0, VStr "r"); (VInt 1, VStr "b"); (VInt 2, VStr "g")]) k
  = if k =? 2 then Some (VStr "g")
    else if k =? 1 then Some (VStr "b")
    else if k =? 0 then Some (VStr "r")
    else None.
Proof.
  change (snd <$> (if 2 =? k then Some (VInt 2, VStr "g")
                   else if 1 =? k then Some (VInt 1, VStr "b")
                   else if 0 =? k then Some (VInt 0, VStr "r")
                   else None)
          = if k =? 2 then Some (VStr "g")
            else if k =? 1 then Some (VStr "b")
            else if k =? 0 then Some (VStr "r")
            else None).
  rewrite (Z.eqb_sym k 2), (Z.eqb_sym k 1), (Z.eqb_sym k 0).
  by destruct (2 =? k), (1 =? k), (0 =? k).
Qed.

Lemma cmap_item_is_Some (k : Z) :
  is_Some (dict_item (VDict [(VInt 0, VStr "r"); (VInt 1, VStr "b"); (VInt 2, VStr "g")]) k)
  ↔ 0 ≤ k ≤ 2.
Proof.
  rewrite cmap_item. split.
  - destruct (Z.eqb_spec k 2); [lia|]. destruct (Z.eqb_spec k 1); [lia|].
    destruct (Z.eqb_spec k 0); [lia|]. by intros [? ?].
  - intros Hk. destruct (Z.eqb_spec k 2); [by eexists|].
    destruct (Z.eqb_spec k 1); [by eexists|].
    destruct (Z.eqb_spec k 0); [by eexists|]. lia.
Qed.

Lemma cmap_item_inj (a b : Z) (x : value) :
  dict_item (VDict [(VInt 0, VStr "r"); (VInt 1, VStr "b"); (VInt 2, VStr "g")]) a = Some x →
  dict_item (VDict [(VInt 0, VStr "r"); (VInt 1, VStr "b"); (VInt 2, VStr "g")]) b = Some x →
  a = b.
Proof.
  rewrite !cmap_item.
  destruct (Z.eqb_spec a 2), (Z.eqb_spec a 1), (Z.eqb_spec a 0),
           (Z.eqb_spec b 2), (Z.eqb_spec b 1), (Z.eqb_spec b 0);
    intros Ha Hb; try lia; try discriminate Ha; try discriminate Hb;
    rewrite <- Ha in Hb; discriminate Hb.
Qed.

(** X8.  Cell 4 colours the samples of its scatter matrix by
    [[cmap[t] for t in iris.target]] with [cmap = {0:'r', 1:'b', 2:'g'}].
    For any labels, that comprehension succeeds exactly when every label is
    0, 1 or 2 (any other is a [KeyError]); it then gives one colour for each
    sample, and two samples the same colour exactly when they have the same
    label.  Labels 0, 1, 2 get red, blue, green, whereas cell 5 hands
    [radviz] the colours red, green, blue: the two plots of the same data
    do not agree on the colours of labels 1 and 2. *)
Theorem X8_iris_colours :
  name_in R 4 "cmap" = Some (VDict [(VInt 0, VStr "r"); (VInt 1, VStr "b"); (VInt 2, VStr "g")])
  ∧ (4%nat, EvGetItem (VDict [(VInt 0, VStr "r"); (VInt 1, VStr "b"); (VInt 2, VStr "g")])
              (VElemOf (VAttrOf (VObj 18) "target"))) ∈ T
  ∧ (∀ cmap labels,
       name_in R 4 "cmap" = Some cmap →
       (is_Some (dict_items cmap labels) ↔ Forall (λ t, 0 ≤ t ≤ 2) labels))
  ∧ (∀ cmap labels colors,
       name_in R 4 "cmap" = Some cmap →
       dict_items cmap labels = Some colors →
       length colors = length labels
       ∧ ∀ i j a b, labels !! i = Some a → labels !! j = Some b →
           (colors !! i = colors !! j ↔ a = b))
  ∧ (∀ cmap, name_in R 4 "cmap" = Some cmap →
       dict_items cmap [0; 1; 2] = Some [VStr "r"; VStr "b"; VStr "g"])
  ∧ keyword_in I 5 "pandas.tools.plotting" "radviz" "color"
    = Some (VList [VStr "r"; VStr "g"; VStr "b"]).
Proof.
  assert (Hc : name_in R 4 "cmap"
               = Some (VDict [(VInt 0, VStr "r"); (VInt 1, VStr "b"); (VInt 2, VStr "g")]))
    by (by vm_compute).
  split; [exact Hc|]. split.
  { apply (elem_of_filtered (λ ce, match ce.2 with
                                   | EvGetItem (VDict _) _ => true
                                   | _ => false
                                   end)). vm_compute. left. }
  rewrite Hc. split; [|split; [|split; [|by vm_compute]]].
  - intros cmap labels [= <-]. unfold dict_items. rewrite mapM_is_Some.
    apply Forall_iff. intros t. apply cmap_item_is_Some.
  - intros cmap labels colors [= <-] Hm. unfold dict_items in Hm.
    apply mapM_Some in Hm. split; [symmetry; by eapply Forall2_length|].
    intros i j a b Hi Hj.
    destruct (Forall2_lookup_l _ _ _ _ _ Hm Hi) as (x & Hx & Hax).
    destruct (Forall2_lookup_l _ _ _ _ _ Hm Hj) as (y & Hy & Hby).
    rewrite Hx, Hy. split.
    + intros [= ->]. by eapply cmap_item_inj.
    + intros ->. rewrite Hax in Hby. by injection Hby as ->.
  - intros cmap [= <-]. reflexivity.
Qed.

Lemma X8_witness :
  is_Some (dict_items (VDict [(VInt 0, VStr "r"); (VInt 1, VStr "b"); (VInt 2, VStr "g")])
             [0; 0; 1; 2; 2])
  ↔ Forall (λ t, 0 ≤ t ≤ 2) [0; 0; 1; 2; 2].
Proof.
  apply (proj1 (proj2 (proj2 X8_iris_colours))). by vm_compute.
Defined.

(** ** The palette of the clustering cells *)

Lemma lookup_join_replicate {A} (p : list A) (m i : nat) :
  (i < m * length p)%nat → mjoin (replicate m p) !! i = p !! (i mod length p)%nat.
Proof.
  revert i. induction m as [|m IH]; intros i Hi; [lia|].
  simpl. destruct (decide (i < length p)%nat) as [Hlt|Hge].
  - rewrite lookup_app_l by exact Hlt. by rewrite Nat.mod_small.
  - rewrite lookup_app_r by lia. rewrite IH by lia.
    f_equal. replace i with ((i - length p) + 1 * length p)%nat at 2 by lia.
    by rewrite Nat.Div0.mod_add.
Qed.

Lemma palette_period : palette = mjoin (replicate 80 (chars "bgrcmyk")).
Proof. reflexivity. Qed.

Lemma palette_item (i : Z) :
  0 ≤ i < 560 → np_item palette i = chars "bgrcmyk" !! Z.to_nat (i mod 7).
Proof.
  intros Hi. unfold np_item. rewrite palette_period.
  replace (length (mjoin (replicate 80 (chars "bgrcmyk")))) with 560%nat by reflexivity.
  replace ((0 <=? i) && (i <? Z.of_nat 560)) with true
    by (symmetry; apply andb_true_intro; split; [apply Z.leb_le|apply Z.ltb_lt]; lia).
  rewrite lookup_join_replicate by (simpl; lia).
  f_equal. change (length (chars "bgrcmyk")) with (Z.to_nat 7).
  rewrite Z2Nat.inj_mod; lia.
Qed.

Lemma seven_colours (a b : nat) :
  (a < 7)%nat → (b < 7)%nat →
  chars "bgrcmyk" !! a = chars "bgrcmyk" !! b → a = b.
Proof.
  intros Ha Hb.
  do 7 (destruct a as [|a];
        [do 7 (destruct b as [|b]; [first [reflexivity|discriminate]|]); lia|]).
  lia.
Qed.

Lemma np_upto_item (a : list value) (n k : Z) :
  0 ≤ k < n → k < Z.of_nat (length a) → np_item (np_upto a n) k = np_item a k.
Proof.
  intros Hk Hl. unfold np_item, np_upto. rewrite length_take.
  replace ((0 <=? k) && (k <? Z.of_nat (Z.to_nat n `min` length a))) with true
    by (symmetry; apply andb_true_intro; split; [apply Z.leb_le|apply Z.ltb_lt]; lia).
  replace ((0 <=? k) && (k <? Z.of_nat (length a))) with true
    by (symmetry; apply andb_true_intro; split; [apply Z.leb_le|apply Z.ltb_lt]; lia).
  apply lookup_take_lt. lia.
Qed.

(** X9.  The array [colors] of the clustering cells repeats the seven
    letters [bgrcmyk]: label [i] is drawn in letter [i mod 7], so two
    labels below 560 get the same colour exactly when they are equal modulo
    7.  The five clusters of [MiniBatchKMeans] are five distinct colours;
    beyond seven clusters, which [AffinityPropagation] may find, colours
    repeat.  [colors[:n]] keeps the colour of every label below [n], so a
    centre is drawn in the colour of the points of its cluster. *)
Theorem X9_palette_repeats_seven_colours :
  array_of T 2 (VObj 329) = Some palette
  ∧ (∀ i, 0 ≤ i < 560 → np_item palette i = chars "bgrcmyk" !! Z.to_nat (i mod 7))
  ∧ (∀ i j, 0 ≤ i < 560 → 0 ≤ j < 560 →
       (np_item palette i = np_item palette j ↔ i mod 7 = j mod 7))
  ∧ (∀ n k, 0 ≤ k < n → k < 560 → np_item (np_upto palette n) k = np_item palette k).
Proof.
  split; [by vm_compute|]. split; [exact palette_item|]. split.
  - intros i j Hi Hj. rewrite !palette_item by assumption.
    pose proof (Z.mod_pos_bound i 7 eq_refl) as Bi.
    pose proof (Z.mod_pos_bound j 7 eq_refl) as Bj. split.
    + intros H. apply seven_colours in H; lia.
    + by intros ->.
  - intros n k Hk Hl. apply np_upto_item; [exact Hk|]. exact Hl.
Qed.

(** Labels 3 and 10 are both drawn in cyan. *)
Lemma X9_witness : np_item palette 3 = np_item palette 10 ↔ 3 mod 7 = 10 mod 7.
Proof.
  apply (proj1 (proj2 (proj2 X9_palette_repeats_seven_colours))); lia.
Defined.

(** ** How many values *)

Lemma arity_matches_all : forallb (λ ce, arity_matches I ce.2) T = true.
Proof. by vm_compute. Qed.

(** X10.  In every run, under any library, every unpacking asks for as many
    values as the library documents the unpacked value to hold (four for
    [train_test_split] of two arrays, two for [plt.subplots] and for the
    generated datasets), and every [%] formatting has a literal format with
    as many conversions as it is given values (two for the [shape] of the
    data of a bundled dataset, one for a metric): no run stops on a wrong
    number of values. *)
Theorem X10_arities_match :
  (∀ lib ce,
     ce ∈ trace (run_all lib notebook).2 → arity_matches I ce.2 = true)
  ∧ length (List.filter (λ ce, match ce.2 with EvUnpack _ _ => true | _ => false end) T)
    = 19%nat
  ∧ length (List.filter (λ ce, match ce.2 with EvBinOp _ _ _ => true | _ => false end) T)
    = 23%nat.
Proof.
  split; [|split; by vm_compute].
  intros lib ce Hce%run_all_event.
  exact (forallb_elem_of _ _ ce arity_matches_all Hce).
Qed.

(** Cell 29 unpacks its split into four. *)
Lemma X10_witness : arity_matches I (EvUnpack (VObj 221) 4) = true.
Proof.
  apply (proj1 X10_arities_match quiet (29%nat, EvUnpack (VObj 221) 4)).
  apply (elem_of_filtered (λ ce, match ce.2 with
                                 | EvUnpack (VObj 221) _ => true
                                 | _ => false
                                 end)). vm_compute. left.
Defined.

(** ** Run All in a kernel that already holds names

    A kernel that has run cells before holds their names.  Every name the
    notebook reads it has bound before, so what the kernel held makes no
    difference, as long as it hides none of the builtins the notebook
    calls. *)











Section Leftover.
Variable lib : nat → option string.




















End Leftover.





